(** * BMP180 barometric sensor driver: embedding and verification

    Shallow embedding of [src/altimeter/include/altimeter/BMP180_driver.py].

    - Python integers are unbounded: they are [Z], with [//] as [Z.div]
      (both round toward minus infinity) and [<<], [>>], [|] as [Z.shiftl],
      [Z.shiftr], [Z.lor].
    - Python floats are IEEE 754 binary64: they are the kernel's primitive
      [float].  Only [altitude], which calls [math.log] and [round], is
      modelled over the real numbers (see [Altitude] below).
    - Exceptions are an explicit [result]; the methods of the driver run in
      a state-and-exception monad over the driver object and the bus, in
      which the state survives a raised exception, as in Python. *)

From Stdlib Require Import ZArith List Bool Lia Floats.
From Stdlib Require Import Strings.Byte.
From Stdlib Require Import Reals Lra.
Import ListNotations.

Set Warnings "-inexact-float".
Local Open Scope Z_scope.

(** ** Python primitives *)

Module Py.

(** The exceptions the driver can meet.  [IOError] is what the bus
    transport raises; its argument is the errno of the failed transfer. *)
Inductive exn : Set :=
| AssertionError
| ZeroDivisionError
| OverflowError
| IndexError
| ValueError
| TypeError
| StructError
| IOError (errno : Z).

Inductive result (A : Type) : Type :=
| Ok (a : A)
| Raise (e : exn).
Arguments Ok {A} a.
Arguments Raise {A} e.

Definition is_ok {A} (r : result A) : bool :=
  match r with Ok _ => true | Raise _ => false end.

(** [a // b] *)
Definition floordiv (a b : Z) : result Z :=
  if b =? 0 then Raise ZeroDivisionError else Ok (a / b).

(** [a << n] and [a >> n]: a negative count is a ValueError. *)
Definition lshift (a n : Z) : result Z :=
  if n <? 0 then Raise ValueError else Ok (Z.shiftl a n).

Definition rshift (a n : Z) : result Z :=
  if n <? 0 then Raise ValueError else Ok (Z.shiftr a n).

(** [l[i]], negative indices counting from the end. *)
Definition getitem {A} (l : list A) (i : Z) : result A :=
  let n := Z.of_nat (length l) in
  let j := if i <? 0 then i + n else i in
  if (0 <=? j) && (j <? n)
  then match nth_error l (Z.to_nat j) with
       | Some x => Ok x
       | None => Raise IndexError
       end
  else Raise IndexError.

(** Conversion of an int to a float, as [int / float] performs it:
    correctly rounded (ties to even), OverflowError from the first
    integer that rounds beyond the largest finite double. *)
Definition float_overflow : Z := 2 ^ 1024 - 2 ^ 970.

Definition float_of_int (n : Z) : result float :=
  if Z.abs n <? float_overflow
  then Ok (SF2Prim (binary_normalize prec emax n 0 false))
  else Raise OverflowError.

(** [n / d] for an int [n] and a float [d]. *)
Definition truediv (n : Z) (d : float) : result float :=
  match float_of_int n with
  | Raise e => Raise e
  | Ok x => if PrimFloat.eqb d 0 then Raise ZeroDivisionError
            else Ok (PrimFloat.div x d)
  end.

End Py.
Import Py.

(** ** [struct.unpack('>hhhHHHhhhhh', ...)] *)

Module Struct.

Definition byte_val (b : byte) : Z := Z.of_N (Byte.to_N b).

(** Big-endian unsigned 16-bit field ([H]). *)
Definition u16 (hi lo : byte) : Z := byte_val hi * 256 + byte_val lo.

(** Big-endian signed 16-bit field ([h]), two's complement. *)
Definition s16 (hi lo : byte) : Z :=
  let u := u16 hi lo in if u <? 32768 then u else u - 65536.

Record calib : Set := Calib {
  c_ac1 : Z; c_ac2 : Z; c_ac3 : Z; c_ac4 : Z; c_ac5 : Z; c_ac6 : Z;
  c_b1 : Z; c_b2 : Z; c_mb : Z; c_mc : Z; c_md : Z }.

(** The buffer must hold exactly the 22 bytes of the format. *)
Definition unpack (buf : list byte) : result calib :=
  match buf with
  | [a1; a1'; a2; a2'; a3; a3'; a4; a4'; a5; a5'; a6; a6';
     b1; b1'; b2; b2'; mb; mb'; mc; mc'; md; md'] =>
      Ok (Calib (s16 a1 a1') (s16 a2 a2') (s16 a3 a3')
                (u16 a4 a4') (u16 a5 a5') (u16 a6 a6')
                (s16 b1 b1') (s16 b2 b2') (s16 mb mb')
                (s16 mc mc') (s16 md md'))
  | _ => Raise StructError
  end.

End Struct.

(** ** Module constants *)

Definition _REG_AC1 : Z := 0xAA.
Definition _REG_CALIB_OFFSET : Z := _REG_AC1.
Definition _REG_CONTROL_MEASUREMENT : Z := 0xF4.
Definition _REG_DATA : Z := 0xF6.

Definition _CMD_START_CONVERSION : Z := 0x20.  (* 0b00100000 *)
Definition _CMD_TEMPERATURE : Z := 0x0E.       (* 0b00001110 *)
Definition _CMD_PRESSURE : Z := 0x14.          (* 0b00010100 *)

Definition OS_MODE_SINGLE : Z := 0.
Definition OS_MODE_2 : Z := 1.
Definition OS_MODE_4 : Z := 2.
Definition OS_MODE_8 : Z := 3.

Definition _WAIT_TEMPERATURE : float := 0.0045%float.
Definition _WAIT_PRESSURE : list float :=
  [0.0045; 0.0075; 0.0135; 0.0255]%float.

(** ** The bus transport

    [smbus.SMBus] is an external collaborator: the driver only writes a byte
    to a register and reads a block from a register.  A transfer either
    fails with an errno or succeeds; both may change the state of the bus. *)

Class SMBus (B : Type) : Type := {
  write_byte_data : B -> Z -> Z -> Z -> option Z * B;
  read_i2c_block_data : B -> Z -> Z -> Z -> (Z + list byte) * B }.

(** A bus that replays a script: each transfer consumes the next entry,
    [inl errno] for a failed transfer and [inr data] for a successful one
    (a write ignores the data).  An exhausted script fails with EIO. *)
Definition script : Type := list (Z + list byte).

Definition EIO : Z := 5.

#[export] Instance script_bus : SMBus script := {
  write_byte_data b _ _ _ :=
    match b with
    | [] => (Some EIO, [])
    | inl e :: b' => (Some e, b')
    | inr _ :: b' => (None, b')
    end;
  read_i2c_block_data b _ _ _ :=
    match b with
    | [] => (inl EIO, [])
    | inl e :: b' => (inl e, b')
    | inr d :: b' => (inr d, b')
    end }.

(** ** The driver object *)

Record BMP180 : Set := Self {
  _addr : Z;
  _ac1 : Z; _ac2 : Z; _ac3 : Z; _ac4 : Z; _ac5 : Z; _ac6 : Z;
  _b1 : Z; _b2 : Z; _mb : Z; _mc : Z; _md : Z;
  _os_mode : Z;
  _pressure : option float;
  _temperature : option float }.

Definition set_os_mode (m : Z) (s : BMP180) : BMP180 :=
  Self (_addr s) (_ac1 s) (_ac2 s) (_ac3 s) (_ac4 s) (_ac5 s) (_ac6 s)
       (_b1 s) (_b2 s) (_mb s) (_mc s) (_md s)
       m (_pressure s) (_temperature s).

Definition set_pressure (p : float) (s : BMP180) : BMP180 :=
  Self (_addr s) (_ac1 s) (_ac2 s) (_ac3 s) (_ac4 s) (_ac5 s) (_ac6 s)
       (_b1 s) (_b2 s) (_mb s) (_mc s) (_md s)
       (_os_mode s) (Some p) (_temperature s).

Definition set_temperature (t : float) (s : BMP180) : BMP180 :=
  Self (_addr s) (_ac1 s) (_ac2 s) (_ac3 s) (_ac4 s) (_ac5 s) (_ac6 s)
       (_b1 s) (_b2 s) (_mb s) (_mc s) (_md s)
       (_os_mode s) (_pressure s) (Some t).

(** ** Compensation arithmetic

    The locals of [_update_sensor_data], in the order the method computes
    them.  A step whose right operand is a positive literal is total and is
    written with the total operation of [Z]; a step that shifts by the
    oversampling mode or divides by a computed value can raise. *)

Module Compensation.

(** [ut = vals[0] << 8 | vals[1]] *)
Definition raw_temperature (vals : list byte) : result Z :=
  match getitem vals 0 with
  | Raise e => Raise e
  | Ok v0 =>
    match getitem vals 1 with
    | Raise e => Raise e
    | Ok v1 => Ok (Z.lor (Z.shiftl (Struct.byte_val v0) 8)
                         (Struct.byte_val v1))
    end
  end.

(** [up = (vals[0] << 16 | vals[1] << 8 | vals[0]) >> (8 - self._os_mode)] *)
Definition raw_pressure (vals : list byte) (os_mode : Z) : result Z :=
  match getitem vals 0 with
  | Raise e => Raise e
  | Ok v0 =>
    match getitem vals 1 with
    | Raise e => Raise e
    | Ok v1 =>
      match getitem vals 0 with
      | Raise e => Raise e
      | Ok v0' =>
          rshift (Z.lor (Z.lor (Z.shiftl (Struct.byte_val v0) 16)
                               (Z.shiftl (Struct.byte_val v1) 8))
                        (Struct.byte_val v0'))
                 (8 - os_mode)
      end
    end
  end.

(** [x1 = ((ut - self._ac6) * self._ac5) >> 15] *)
Definition temp_x1 (self : BMP180) (ut : Z) : Z :=
  Z.shiftr ((ut - _ac6 self) * _ac5 self) 15.

(** [x2 = (self._mc << 11) // (x1 + self._md)] *)
Definition temp_x2 (self : BMP180) (ut : Z) : result Z :=
  floordiv (Z.shiftl (_mc self) 11) (temp_x1 self ut + _md self).

(** [b5 = x1 + x2] *)
Definition calc_b5 (self : BMP180) (ut : Z) : result Z :=
  match temp_x2 self ut with
  | Raise e => Raise e
  | Ok x2 => Ok (temp_x1 self ut + x2)
  end.

(** The integer [(b5 + 8) // 2**4], in tenths of a degree. *)
Definition temp_tenths (b5 : Z) : Z := (b5 + 8) / 2 ^ 4.

(** [((b5 + 8) // 2**4) / 10.0] *)
Definition calc_temperature (b5 : Z) : result float :=
  truediv (temp_tenths b5) 10%float.

(** [x1 = self._b2 * ((b6 * b6) >> 12)], [x2 = self._ac2 * b6],
    [x3 = (x1 + x2) >> 11] *)
Definition b3_x3 (self : BMP180) (b6 : Z) : Z :=
  let x1 := _b2 self * Z.shiftr (b6 * b6) 12 in
  let x2 := _ac2 self * b6 in
  Z.shiftr (x1 + x2) 11.

(** [b3 = (((self._ac1 *4 + x3) << self._os_mode) + 2) >> 2] *)
Definition calc_b3 (self : BMP180) (b6 : Z) : result Z :=
  match lshift (_ac1 self * 4 + b3_x3 self b6) (_os_mode self) with
  | Raise e => Raise e
  | Ok t => Ok (Z.shiftr (t + 2) 2)
  end.

(** [x2 = (self._b1 * (b6 * b6) >> 12) >> 16]: [*] binds tighter than
    [>>], so the product [b1 * b6 * b6] is what is shifted by 12. *)
Definition b4_x2 (self : BMP180) (b6 : Z) : Z :=
  Z.shiftr (Z.shiftr (_b1 self * (b6 * b6)) 12) 16.

(** [x1 = (self._ac3 * b6) >> 13], [x3 = ((x1 + x2) + 2) >> 2] *)
Definition b4_x3 (self : BMP180) (b6 : Z) : Z :=
  let x1 := Z.shiftr (_ac3 self * b6) 13 in
  Z.shiftr ((x1 + b4_x2 self b6) + 2) 2.

(** [b4 = (self._ac4 * (x3 + 32768)) >> 15] *)
Definition calc_b4 (self : BMP180) (b6 : Z) : Z :=
  Z.shiftr (_ac4 self * (b4_x3 self b6 + 32768)) 15.

(** [b7 = (up - b3) * (50000 >> self._os_mode)] *)
Definition calc_b7 (self : BMP180) (up b3 : Z) : result Z :=
  match rshift 50000 (_os_mode self) with
  | Raise e => Raise e
  | Ok k => Ok ((up - b3) * k)
  end.

(** [if (b7 < 0x80000000): p = (b7 * 2) // b4 else: p = (b7 // b4) * 2] *)
Definition calc_p (b7 b4 : Z) : result Z :=
  if b7 <? 0x80000000
  then floordiv (b7 * 2) b4
  else match floordiv b7 b4 with
       | Raise e => Raise e
       | Ok q => Ok (q * 2)
       end.

(** [x1 = p**2 >> 16], [x1 = (x1 * 3038) >> 16], [x2 = (-7357 * p) >> 16],
    and the integer [p + ((x1 + x2 + 3791) >> 4)], in pascals. *)
Definition pressure_pa (p : Z) : Z :=
  let x1 := Z.shiftr (p ^ 2) 16 in
  let x1 := Z.shiftr (x1 * 3038) 16 in
  let x2 := Z.shiftr (-7357 * p) 16 in
  p + Z.shiftr (x1 + x2 + 3791) 4.

(** [(p + ((x1 + x2 + 3791) >> 4)) / 100.0] *)
Definition calc_pressure (p : Z) : result float :=
  truediv (pressure_pa p) 100%float.

(** Lines 144 to 157: from [b5] and [up] to [p]. *)
Definition calc_p_of (self : BMP180) (b5 up : Z) : result Z :=
  let b6 := b5 - 4000 in
  match calc_b3 self b6 with
  | Raise e => Raise e
  | Ok b3 =>
    let b4 := calc_b4 self b6 in
    match calc_b7 self up b3 with
    | Raise e => Raise e
    | Ok b7 => calc_p b7 b4
    end
  end.

End Compensation.
Import Compensation.

(** ** Altitude

    [altitude] computes with [math.log] and [round(., 2)] on floats, neither
    of which has a binary64 counterpart here.  It is modelled over the real
    numbers: the stored reading is taken at its real value, the constants at
    their decimal values, and every operation is exact. *)

Module Altitude.

Local Open Scope R_scope.

(** The type of reals, which the constant [R] below shadows. *)
Local Abbreviation real := Rdefinitions.R.

(** The real value of a double; infinities and NaN have none, and the
    driver never stores one. *)
Definition float_R (f : float) : real :=
  match Prim2SF f with
  | S754_finite s m e =>
      IZR (if s then Z.neg m else Z.pos m) * powerRZ 2 e
  | _ => 0
  end.

(** Nearest integer, ties to the even one. *)
Definition round_half_even (x : real) : Z :=
  let n := Int_part x in
  let f := x - IZR n in
  if Rlt_dec f (1 / 2) then n
  else if Rlt_dec (1 / 2) f then (n + 1)%Z
  else if Z.even n then n else (n + 1)%Z.

(** [round(x, 2)] *)
Definition round2 (x : real) : real :=
  IZR (round_half_even (x * 100)) / 100.

(** [math.log(x)]: a ValueError outside the domain. *)
Definition math_log (x : real) : result real :=
  if Rle_dec x 0 then Raise ValueError else Ok (ln x).

Definition g0 : real := 9.80665.
Definition M : real := 0.0289644.
Definition R : real := 8.3144598.
Definition temp_C : real := 25.
Definition Tb : real := temp_C + 273.15.
Definition p0 : real := 1013.25.

(** [altitude = - math.log(p/p0) * (R * Tb) / (g0 * M)];
    [altitude = round(altitude,2)] *)
Definition altitude_of (p : real) : result real :=
  match math_log (p / p0) with
  | Raise e => Raise e
  | Ok l => Ok (round2 (- l * (R * Tb) / (g0 * M)))
  end.

End Altitude.

(** ** Methods: state and exceptions

    A method runs on the driver object and the bus, and returns a value or
    raises; the object and the bus it leaves behind are those reached when
    the exception was raised. *)

Definition Method (B A : Type) : Type := BMP180 -> B -> result A * BMP180 * B.

Definition ret {B A} (a : A) : Method B A := fun s b => (Ok a, s, b).

Definition raise {B A} (e : exn) : Method B A := fun s b => (Raise e, s, b).

Definition lift {B A} (r : result A) : Method B A := fun s b => (r, s, b).

Definition bind {B A C} (m : Method B A) (k : A -> Method B C) : Method B C :=
  fun s b =>
    match m s b with
    | (Ok a, s', b') => k a s' b'
    | (Raise e, s', b') => (Raise e, s', b')
    end.

Definition get_self {B} : Method B BMP180 := fun s b => (Ok s, s, b).

Definition modify {B} (f : BMP180 -> BMP180) : Method B unit :=
  fun s b => (Ok tt, f s, b).

(** [time.sleep(d)]: the wait changes neither the object nor the bus. *)
Definition sleep {B} (d : float) : Method B unit := ret tt.

Declare Scope method_scope.
Delimit Scope method_scope with method.
Notation "x <- m ;; k" := (bind m (fun x => k))
  (at level 61, m at next level, right associativity) : method_scope.
Notation "m ;; k" := (bind m (fun _ => k))
  (at level 61, right associativity) : method_scope.

Section Driver.

Context {B : Type} {smbus : SMBus B}.
Local Open Scope method_scope.

(** [self._bus.write_byte_data(addr, reg, val)] *)
Definition bus_write (addr reg val : Z) : Method B unit :=
  fun s b =>
    match write_byte_data b addr reg val with
    | (None, b') => (Ok tt, s, b')
    | (Some e, b') => (Raise (IOError e), s, b')
    end.

(** [self._bus.read_i2c_block_data(addr, reg, len)] *)
Definition bus_read (addr reg len : Z) : Method B (list byte) :=
  fun s b =>
    match read_i2c_block_data b addr reg len with
    | (inr vals, b') => (Ok vals, s, b')
    | (inl e, b') => (Raise (IOError e), s, b')
    end.

(** [_read_calibration_data]: the 22-byte block, unpacked. *)
Definition _read_calibration_data (addr : Z) (b : B)
  : result Struct.calib * B :=
  match read_i2c_block_data b addr _REG_CALIB_OFFSET 22 with
  | (inr calib, b') => (Struct.unpack calib, b')
  | (inl e, b') => (Raise (IOError e), b')
  end.

(** [BMP180(bus, addr, os_mode)], on the opened bus [b].  No object
    exists when the constructor raises. *)
Definition __init__ (b : B) (addr os_mode : Z) : result BMP180 * B :=
  if (addr >? 7) && (addr <? 120)
  then match _read_calibration_data addr b with
       | (Ok c, b') =>
           (Ok (Self addr
                     (Struct.c_ac1 c) (Struct.c_ac2 c) (Struct.c_ac3 c)
                     (Struct.c_ac4 c) (Struct.c_ac5 c) (Struct.c_ac6 c)
                     (Struct.c_b1 c) (Struct.c_b2 c) (Struct.c_mb c)
                     (Struct.c_mc c) (Struct.c_md c)
                     os_mode None None), b')
       | (Raise e, b') => (Raise e, b')
       end
  else (Raise AssertionError, b).

Definition _update_sensor_data : Method B unit :=
  self <- get_self ;;
  let cmd := Z.lor _CMD_START_CONVERSION _CMD_TEMPERATURE in
  bus_write (_addr self) _REG_CONTROL_MEASUREMENT cmd ;;
  sleep _WAIT_TEMPERATURE ;;
  vals <- bus_read (_addr self) _REG_DATA 2 ;;
  ut <- lift (raw_temperature vals) ;;
  let cmd := Z.lor (Z.lor _CMD_START_CONVERSION
                          (Z.shiftl (_os_mode self) 6))
                   _CMD_PRESSURE in
  bus_write (_addr self) _REG_CONTROL_MEASUREMENT cmd ;;
  wait <- lift (getitem _WAIT_PRESSURE (_os_mode self)) ;;
  sleep wait ;;
  vals <- bus_read (_addr self) _REG_DATA 3 ;;
  up <- lift (raw_pressure vals (_os_mode self)) ;;
  b5 <- lift (calc_b5 self ut) ;;
  t <- lift (calc_temperature b5) ;;
  modify (set_temperature t) ;;
  p <- lift (calc_p_of self b5 up) ;;
  pa <- lift (calc_pressure p) ;;
  modify (set_pressure pa).

Definition pressure : Method B (option float) :=
  _update_sensor_data ;;
  self <- get_self ;;
  ret (_pressure self).

Definition temperature : Method B (option float) :=
  _update_sensor_data ;;
  self <- get_self ;;
  ret (_temperature self).

(** [p = self._pressure] is a float after an update; dividing [None]
    would be a TypeError. *)
Definition altitude : Method B R :=
  _update_sensor_data ;;
  self <- get_self ;;
  match _pressure self with
  | None => raise TypeError
  | Some p => lift (Altitude.altitude_of (Altitude.float_R p))
  end.

(** The [os_mode] property: getter and setter. *)
Definition os_mode : Method B Z :=
  self <- get_self ;;
  ret (_os_mode self).

Definition os_mode_setter (os_mode : Z) : Method B unit :=
  if (os_mode =? OS_MODE_SINGLE) || (os_mode =? OS_MODE_2)
     || (os_mode =? OS_MODE_4) || (os_mode =? OS_MODE_8)
  then modify (set_os_mode os_mode)
  else raise AssertionError.

End Driver.

(** ** The two readings as functions of the raw codes

    What [_update_sensor_data] stores, read off its last ten statements:
    the temperature from [ut], the pressure from [ut] and [up].  The
    temperature is converted and stored before the pressure is computed, so
    the pressure inherits an exception of the temperature.
    [update_stores] below ties both to the method. *)

Definition temperature_of (self : BMP180) (ut : Z) : result float :=
  match calc_b5 self ut with
  | Raise e => Raise e
  | Ok b5 => calc_temperature b5
  end.

Definition pressure_of (self : BMP180) (ut up : Z) : result float :=
  match calc_b5 self ut with
  | Raise e => Raise e
  | Ok b5 =>
    match calc_temperature b5 with
    | Raise e => Raise e
    | Ok _ =>
      match calc_p_of self b5 up with
      | Raise e => Raise e
      | Ok p => calc_pressure p
      end
    end
  end.

Definition coefficients (self : BMP180) : Struct.calib :=
  Struct.Calib (_ac1 self) (_ac2 self) (_ac3 self) (_ac4 self) (_ac5 self)
               (_ac6 self) (_b1 self) (_b2 self) (_mb self) (_mc self)
               (_md self).

(** A driver object holding the given coefficients and mode, with nothing
    stored yet. *)
Definition driver_of (addr : Z) (c : Struct.calib) (os_mode : Z) : BMP180 :=
  Self addr
       (Struct.c_ac1 c) (Struct.c_ac2 c) (Struct.c_ac3 c)
       (Struct.c_ac4 c) (Struct.c_ac5 c) (Struct.c_ac6 c)
       (Struct.c_b1 c) (Struct.c_b2 c) (Struct.c_mb c)
       (Struct.c_mc c) (Struct.c_md c)
       os_mode None None.

(** The coefficients of the worked example. *)
Definition reference_coefficients : Struct.calib :=
  Struct.Calib 408 (-72) (-14383) 32741 32757 23153 6190 4 (-32768) (-8711)
               2868.

(** The ranges of the eleven fields: [h] is signed, [H] unsigned. *)
Definition int16 (x : Z) : Prop := -32768 <= x <= 32767.
Definition uint16 (x : Z) : Prop := 0 <= x <= 65535.

Definition calibrated (self : BMP180) : Prop :=
  int16 (_ac1 self) /\ int16 (_ac2 self) /\ int16 (_ac3 self) /\
  uint16 (_ac4 self) /\ uint16 (_ac5 self) /\ uint16 (_ac6 self) /\
  int16 (_b1 self) /\ int16 (_b2 self) /\ int16 (_mb self) /\
  int16 (_mc self) /\ int16 (_md self).

Definition valid_mode (m : Z) : Prop :=
  m = OS_MODE_SINGLE \/ m = OS_MODE_2 \/ m = OS_MODE_4 \/ m = OS_MODE_8.

(** ** The pipeline as the specification words it

    [compensate(UT, UP, mode, coeffs)] of the specification, line by line.
    The specification casts two operands with [(unsigned)]; the cast is a
    parameter, so that the comparison with the code can be made both
    without it (unbounded integers) and with a 32-bit wrap-around. *)

Module Spec.

Import Struct.

Definition no_cast (x : Z) : Z := x.
Definition cast_u32 (x : Z) : Z := x mod 2 ^ 32.

(** [X1 = (B2 * (B6*B6 >> 12)) >> 11], [X2 = (AC2 * B6) >> 11],
    [X3 = X1 + X2] *)
Definition X3_of_B3 (c : calib) (B6 : Z) : Z :=
  let X1 := Z.shiftr (c_b2 c * Z.shiftr (B6 * B6) 12) 11 in
  let X2 := Z.shiftr (c_ac2 c * B6) 11 in
  X1 + X2.

(** [X2 = (B1 * (B6*B6 >> 12)) >> 16] *)
Definition X2_of_B4 (c : calib) (B6 : Z) : Z :=
  Z.shiftr (c_b1 c * Z.shiftr (B6 * B6) 12) 16.

Definition B5_of (c : calib) (UT : Z) : result Z :=
  let X1 := Z.shiftr ((UT - c_ac6 c) * c_ac5 c) 15 in
  match floordiv (Z.shiftl (c_mc c) 11) (X1 + c_md c) with
  | Raise e => Raise e
  | Ok X2 => Ok (X1 + X2)
  end.

(** [T = (B5 + 8) >> 4], [temperatureC = T / 10.0] *)
Definition temperatureC (c : calib) (UT : Z) : result float :=
  match B5_of c UT with
  | Raise e => Raise e
  | Ok B5 => truediv (Z.shiftr (B5 + 8) 4) 10%float
  end.

Definition pressurePa_hundredths (unsigned : Z -> Z) (c : calib)
    (B5 UP mode : Z) : result Z :=
  let B6 := B5 - 4000 in
  let X3 := X3_of_B3 c B6 in
  let B3 := Z.shiftr (Z.shiftl (c_ac1 c * 4 + X3) mode + 2) 2 in
  let X1 := Z.shiftr (c_ac3 c * B6) 13 in
  let X2 := X2_of_B4 c B6 in
  let X3 := Z.shiftr ((X1 + X2) + 2) 2 in
  let B4 := Z.shiftr (c_ac4 c * unsigned (X3 + 32768)) 15 in
  let B7 := (unsigned UP - B3) * Z.shiftr 50000 mode in
  match (if B7 <? 0x80000000
         then floordiv (B7 * 2) B4
         else match floordiv B7 B4 with
              | Raise e => Raise e
              | Ok q => Ok (q * 2)
              end) with
  | Raise e => Raise e
  | Ok P =>
      let X1 := Z.shiftr (P * P) 16 in
      let X1 := Z.shiftr (X1 * 3038) 16 in
      let X2 := Z.shiftr (-7357 * P) 16 in
      Ok (P + Z.shiftr (X1 + X2 + 3791) 4)
  end.

(** [pressurePa = pressurePa_hundredths / 100.0], after the temperature. *)
Definition pressurePa (unsigned : Z -> Z) (c : calib) (UT UP mode : Z)
  : result float :=
  match B5_of c UT with
  | Raise e => Raise e
  | Ok B5 =>
    match truediv (Z.shiftr (B5 + 8) 4) 10%float with
    | Raise e => Raise e
    | Ok _ =>
      match pressurePa_hundredths unsigned c B5 UP mode with
      | Raise e => Raise e
      | Ok h => truediv h 100%float
      end
    end
  end.

End Spec.

(** ** The two halves of a reading cycle

    [_update_sensor_data] first talks to the bus (lines 123 to 137), then
    computes and stores (lines 139 to 161).  The halves are named here so
    that statements can speak of the raw codes; [update_split] shows that
    the method is the first half followed by the second. *)

Section Cycle.

Context {B : Type} {smbus : SMBus B}.
Local Open Scope method_scope.

Definition temperature_command : Z :=
  Z.lor _CMD_START_CONVERSION _CMD_TEMPERATURE.

Definition pressure_command (os_mode : Z) : Z :=
  Z.lor (Z.lor _CMD_START_CONVERSION (Z.shiftl os_mode 6)) _CMD_PRESSURE.

Definition acquire : Method B (Z * Z) :=
  self <- get_self ;;
  bus_write (_addr self) _REG_CONTROL_MEASUREMENT temperature_command ;;
  sleep _WAIT_TEMPERATURE ;;
  vals <- bus_read (_addr self) _REG_DATA 2 ;;
  ut <- lift (raw_temperature vals) ;;
  bus_write (_addr self) _REG_CONTROL_MEASUREMENT
            (pressure_command (_os_mode self)) ;;
  wait <- lift (getitem _WAIT_PRESSURE (_os_mode self)) ;;
  sleep wait ;;
  vals <- bus_read (_addr self) _REG_DATA 3 ;;
  up <- lift (raw_pressure vals (_os_mode self)) ;;
  ret (ut, up).

Definition compensate_and_store (ut up : Z) : Method B unit :=
  self <- get_self ;;
  b5 <- lift (calc_b5 self ut) ;;
  t <- lift (calc_temperature b5) ;;
  modify (set_temperature t) ;;
  p <- lift (calc_p_of self b5 up) ;;
  pa <- lift (calc_pressure p) ;;
  modify (set_pressure pa).

(** The four transfers of a cycle all succeed: the two reads return
    [vals2] and [vals3], and the bus is left in [b4]. *)
Inductive acquired (self : BMP180) (b : B)
    (vals2 vals3 : list byte) (b4 : B) : Prop :=
| Acquired (b1 b2 b3 : B)
    (W1 : write_byte_data b (_addr self) _REG_CONTROL_MEASUREMENT
                          temperature_command = (None, b1))
    (R1 : read_i2c_block_data b1 (_addr self) _REG_DATA 2
          = (inr vals2, b2))
    (W2 : write_byte_data b2 (_addr self) _REG_CONTROL_MEASUREMENT
                          (pressure_command (_os_mode self)) = (None, b3))
    (R2 : read_i2c_block_data b3 (_addr self) _REG_DATA 3
          = (inr vals3, b4)).

(** A transfer of the cycle fails with [errno], every transfer before it
    having succeeded and the method having reached it; the bus is left
    in [b']. *)
Inductive transport_failure (self : BMP180) (b : B) (errno : Z) (b' : B)
  : Prop :=
| Fail_temperature_command
    (W1 : write_byte_data b (_addr self) _REG_CONTROL_MEASUREMENT
                          temperature_command = (Some errno, b'))
| Fail_temperature_read (b1 : B)
    (W1 : write_byte_data b (_addr self) _REG_CONTROL_MEASUREMENT
                          temperature_command = (None, b1))
    (R1 : read_i2c_block_data b1 (_addr self) _REG_DATA 2
          = (inl errno, b'))
| Fail_pressure_command (b1 b2 : B) (vals : list byte) (ut : Z)
    (W1 : write_byte_data b (_addr self) _REG_CONTROL_MEASUREMENT
                          temperature_command = (None, b1))
    (R1 : read_i2c_block_data b1 (_addr self) _REG_DATA 2
          = (inr vals, b2))
    (UT : raw_temperature vals = Ok ut)
    (W2 : write_byte_data b2 (_addr self) _REG_CONTROL_MEASUREMENT
                          (pressure_command (_os_mode self))
          = (Some errno, b'))
| Fail_pressure_read (b1 b2 b3 : B) (vals : list byte) (ut : Z)
    (wait : float)
    (W1 : write_byte_data b (_addr self) _REG_CONTROL_MEASUREMENT
                          temperature_command = (None, b1))
    (R1 : read_i2c_block_data b1 (_addr self) _REG_DATA 2
          = (inr vals, b2))
    (UT : raw_temperature vals = Ok ut)
    (W2 : write_byte_data b2 (_addr self) _REG_CONTROL_MEASUREMENT
                          (pressure_command (_os_mode self)) = (None, b3))
    (WT : getitem _WAIT_PRESSURE (_os_mode self) = Ok wait)
    (R2 : read_i2c_block_data b3 (_addr self) _REG_DATA 3
          = (inl errno, b')).

(** The outcome of a cycle whose four transfers succeed, as a function of
    the two blocks read ([acquired_update] below). *)
Definition cycle_outcome (self : BMP180) (vals2 vals3 : list byte)
  : result unit * BMP180 :=
  match raw_temperature vals2 with
  | Raise e => (Raise e, self)
  | Ok ut =>
    match getitem _WAIT_PRESSURE (_os_mode self) with
    | Raise e => (Raise e, self)
    | Ok _ =>
      match raw_pressure vals3 (_os_mode self) with
      | Raise e => (Raise e, self)
      | Ok up =>
        match temperature_of self ut with
        | Raise e => (Raise e, self)
        | Ok t =>
          match pressure_of self ut up with
          | Raise e => (Raise e, set_temperature t self)
          | Ok pa => (Ok tt, set_pressure pa (set_temperature t self))
          end
        end
      end
    end
  end.

(** What a method leaves of the driver object and what it returns. *)
Definition outcome {A} (x : result A * BMP180 * B) : result A * BMP180 :=
  fst x.

Definition object_after {A} (x : result A * BMP180 * B) : BMP180 :=
  snd (fst x).

Definition returned {A} (x : result A * BMP180 * B) : result A :=
  fst (fst x).

End Cycle.

(** ** Test data

    The worked example: the reference coefficients in a driver object, the
    calibration block that unpacks to them, and scripted cycles returning
    the raw codes UT = 27898 ([6c fa]) and UP = 23843 ([5d 23 ..]). *)

Definition reference_driver : BMP180 :=
  driver_of 0x77 reference_coefficients OS_MODE_SINGLE.

Definition reference_calibration_block : list byte :=
  [x01; x98;  xff; xb8;  xc7; xd1;  x7f; xe5;  x7f; xf5;  x5a; x71;
   x18; x2e;  x00; x04;  x80; x00;  xdd; xf9;  x0b; x34].

Definition reference_cycle : script :=
  [inr []; inr [x6c; xfa]; inr []; inr [x5d; x23; x00]].

(** The same cycle with another third byte in the pressure block. *)
Definition reference_cycle_ff : script :=
  [inr []; inr [x6c; xfa]; inr []; inr [x5d; x23; xff]].


(** A driver holding earlier readings, and a cycle whose pressure block
    read fails with EREMOTEIO. *)
Definition EREMOTEIO : Z := 121.

Definition driver_with_readings : BMP180 :=
  set_pressure 699.65%float (set_temperature 15%float reference_driver).

Definition faulty_cycle : script :=
  [inr []; inr [x6c; xfa]; inr []; inl EREMOTEIO].

(** The reference coefficients with AC4 = 0: the second divisor is zero. *)
Definition driver_ac4_zero : BMP180 :=
  driver_of 0x77
    (Struct.Calib 408 (-72) (-14383) 0 32757 23153 6190 4 (-32768) (-8711)
                  2868)
    OS_MODE_SINGLE.

(** ** Auxiliary notions of the proofs *)

(** The exceptions that come from the bus. *)
Definition from_bus (e : exn) : Prop :=
  match e with IOError _ => True | _ => False end.

(** [fits k x]: [x] is at most [2^k] in absolute value.  The exponent is
    in [N], so that the rules on magnitudes carry no side condition on it. *)
Definition fits (k : N) (x : Z) : Prop := Z.abs x <= 2 ^ Z.of_N k.

(** ** Observing the bus

    A bus that records every transfer the driver asks for, in order, and
    passes it on to the bus underneath. *)

Inductive transfer : Set :=
| Write (addr reg val : Z)
| Read (addr reg len : Z).

Definition logged (B : Type) : Type := list transfer * B.

#[export] Instance logged_bus {B : Type} {smbus : SMBus B}
  : SMBus (logged B) := {
  write_byte_data lb addr reg val :=
    let (r, b') := write_byte_data (snd lb) addr reg val in
    (r, (fst lb ++ [Write addr reg val], b'));
  read_i2c_block_data lb addr reg len :=
    let (r, b') := read_i2c_block_data (snd lb) addr reg len in
    (r, (fst lb ++ [Read addr reg len], b')) }.

(** The four transfers of a reading cycle, in the order of lines 123 to
    136. *)
Definition cycle_transfers (self : BMP180) : list transfer :=
  [Write (_addr self) _REG_CONTROL_MEASUREMENT temperature_command;
   Read (_addr self) _REG_DATA 2;
   Write (_addr self) _REG_CONTROL_MEASUREMENT
         (pressure_command (_os_mode self));
   Read (_addr self) _REG_DATA 3].

(** The bus a method leaves behind. *)
Definition bus_after {A B} (x : result A * BMP180 * B) : B := snd x.

(** ** Comparing driver objects *)

(** Two objects with the same address, coefficients and mode: they may
    differ in the readings they hold. *)
Definition same_configuration (s1 s2 : BMP180) : Prop :=
  _addr s1 = _addr s2 /\ coefficients s1 = coefficients s2 /\
  _os_mode s1 = _os_mode s2.

(** What a reading cycle reads of the object: the address, the mode and
    ten of the eleven coefficients. *)
Definition cycle_inputs (s : BMP180)
  : Z * Z * (Z * Z * Z * Z * Z * Z) * (Z * Z * Z * Z) :=
  (_addr s, _os_mode s,
   (_ac1 s, _ac2 s, _ac3 s, _ac4 s, _ac5 s, _ac6 s),
   (_b1 s, _b2 s, _mc s, _md s)).

(** The object with another MB coefficient. *)
Definition with_mb (mb : Z) (s : BMP180) : BMP180 :=
  Self (_addr s) (_ac1 s) (_ac2 s) (_ac3 s) (_ac4 s) (_ac5 s) (_ac6 s)
       (_b1 s) (_b2 s) mb (_mc s) (_md s)
       (_os_mode s) (_pressure s) (_temperature s).

(** A cycle of the reference device whose pressure block is all zeros, and
    a calibration block one byte short. *)
Definition zero_pressure_cycle : script :=
  [inr []; inr [x6c; xfa]; inr []; inr [x00; x00; x00]].

Definition short_calibration_block : list byte :=
  [x01; x98;  xff; xb8;  xc7; xd1;  x7f; xe5;  x7f; xf5;  x5a; x71;
   x18; x2e;  x00; x04;  x80; x00;  xdd; xf9;  x0b].

(** * Facts about the primitives *)

Lemma Ok_inj {A} (x y : A) : Ok x = Ok y -> x = y.
Proof.
  intros E.
  exact (f_equal (fun r => match r with Ok a => a | Raise _ => x end) E).
Qed.

Lemma float_neq (x y : float) :
  PrimFloat.eqb x y = false -> PrimFloat.eqb y y = true -> x <> y.
Proof. intros N E H. subst y. congruence. Qed.

Lemma getitem_0 {A} (x : A) (l : list A) : getitem (x :: l) 0 = Ok x.
Proof.
  unfold getitem. cbn [length Z.ltb Z.compare].
  replace ((0 <=? 0) && (0 <? Z.of_nat (S (length l)))) with true.
  - reflexivity.
  - symmetry. apply andb_true_intro. split; [reflexivity|].
    apply Z.ltb_lt. lia.
Qed.

Lemma getitem_1 {A} (x y : A) (l : list A) : getitem (x :: y :: l) 1 = Ok y.
Proof.
  unfold getitem. cbn [length Z.ltb Z.compare].
  replace ((0 <=? 1) && (1 <? Z.of_nat (S (S (length l))))) with true.
  - reflexivity.
  - symmetry. apply andb_true_intro. split; [reflexivity|].
    apply Z.ltb_lt. lia.
Qed.

Lemma raw_temperature_cons (v0 v1 : byte) (l : list byte) :
  raw_temperature (v0 :: v1 :: l) =
  Ok (Z.lor (Z.shiftl (Struct.byte_val v0) 8) (Struct.byte_val v1)).
Proof. unfold raw_temperature. rewrite getitem_0, getitem_1. reflexivity. Qed.

Lemma raw_pressure_cons (v0 v1 : byte) (l : list byte) (m : Z) :
  raw_pressure (v0 :: v1 :: l) m =
  rshift (Z.lor (Z.lor (Z.shiftl (Struct.byte_val v0) 16)
                       (Z.shiftl (Struct.byte_val v1) 8))
                (Struct.byte_val v0))
         (8 - m).
Proof. unfold raw_pressure. rewrite getitem_0, getitem_1. reflexivity. Qed.

Lemma valid_mode_range (m : Z) : valid_mode m <-> 0 <= m <= 3.
Proof.
  unfold valid_mode, OS_MODE_SINGLE, OS_MODE_2, OS_MODE_4, OS_MODE_8. lia.
Qed.

Lemma wait_of_valid_mode (m : Z) :
  valid_mode m -> exists w, getitem _WAIT_PRESSURE m = Ok w.
Proof.
  intros [-> | [-> | [-> | ->]]]; eexists; reflexivity.
Qed.

Lemma rshift_nonneg (a n : Z) : 0 <= n -> rshift a n = Ok (Z.shiftr a n).
Proof.
  intros H. unfold rshift. destruct (Z.ltb_spec n 0); [lia|reflexivity].
Qed.

Lemma lshift_nonneg (a n : Z) : 0 <= n -> lshift a n = Ok (Z.shiftl a n).
Proof.
  intros H. unfold lshift. destruct (Z.ltb_spec n 0); [lia|reflexivity].
Qed.

Lemma floordiv_nonzero (a b : Z) : b <> 0 -> floordiv a b = Ok (a / b).
Proof.
  intros H. unfold floordiv.
  destruct (Z.eqb_spec b 0); [contradiction|reflexivity].
Qed.

Lemma floordiv_zero (a : Z) : floordiv a 0 = Raise ZeroDivisionError.
Proof. reflexivity. Qed.

Lemma temp_tenths_shiftr (b5 : Z) : temp_tenths b5 = Z.shiftr (b5 + 8) 4.
Proof. unfold temp_tenths. rewrite Z.shiftr_div_pow2 by lia. reflexivity. Qed.

Lemma calc_b5_nonzero (self : BMP180) (ut : Z) :
  temp_x1 self ut + _md self <> 0 ->
  calc_b5 self ut =
  Ok (temp_x1 self ut
      + Z.shiftl (_mc self) 11 / (temp_x1 self ut + _md self)).
Proof.
  intros H. unfold calc_b5, temp_x2. rewrite floordiv_nonzero by exact H.
  reflexivity.
Qed.

Lemma calc_b5_zero (self : BMP180) (ut : Z) :
  temp_x1 self ut + _md self = 0 ->
  calc_b5 self ut = Raise ZeroDivisionError.
Proof. intros H. unfold calc_b5, temp_x2. rewrite H. reflexivity. Qed.

Lemma calc_b3_valid (self : BMP180) (b6 : Z) :
  valid_mode (_os_mode self) ->
  calc_b3 self b6 =
  Ok (Z.shiftr (Z.shiftl (_ac1 self * 4 + b3_x3 self b6) (_os_mode self) + 2)
               2).
Proof.
  intros V. apply valid_mode_range in V. unfold calc_b3.
  rewrite lshift_nonneg by lia. reflexivity.
Qed.

Lemma calc_b7_valid (self : BMP180) (up b3 : Z) :
  valid_mode (_os_mode self) ->
  calc_b7 self up b3 = Ok ((up - b3) * Z.shiftr 50000 (_os_mode self)).
Proof.
  intros V. apply valid_mode_range in V. unfold calc_b7.
  rewrite rshift_nonneg by lia. reflexivity.
Qed.

Lemma calc_p_nonzero (b7 b4 : Z) :
  b4 <> 0 ->
  calc_p b7 b4
  = Ok (if b7 <? 0x80000000 then b7 * 2 / b4 else b7 / b4 * 2).
Proof.
  intros H. unfold calc_p. rewrite !floordiv_nonzero by exact H.
  destruct (b7 <? 0x80000000); reflexivity.
Qed.

Lemma calc_p_zero (b7 : Z) : calc_p b7 0 = Raise ZeroDivisionError.
Proof.
  unfold calc_p. rewrite !floordiv_zero. destruct (_ <? _); reflexivity.
Qed.

Lemma calc_p_of_valid (self : BMP180) (b5 up : Z) :
  valid_mode (_os_mode self) ->
  calc_p_of self b5 up =
  calc_p ((up - Z.shiftr (Z.shiftl (_ac1 self * 4 + b3_x3 self (b5 - 4000))
                                   (_os_mode self) + 2) 2)
          * Z.shiftr 50000 (_os_mode self))
         (calc_b4 self (b5 - 4000)).
Proof.
  intros V. unfold calc_p_of.
  rewrite calc_b3_valid, calc_b7_valid by exact V. reflexivity.
Qed.

(** * The reading cycle *)

Section CycleFacts.

Context {B : Type} {smbus : SMBus B}.

Lemma update_split (self : BMP180) (b : B) :
  _update_sensor_data self b =
  bind acquire (fun x => compensate_and_store (fst x) (snd x)) self b.
Proof.
  unfold _update_sensor_data, acquire, compensate_and_store, bind, get_self,
    sleep, ret, lift, bus_write, bus_read, modify.
  fold temperature_command. fold (pressure_command (_os_mode self)).
  destruct (write_byte_data b _ _ _) as [[e|] b1]; [reflexivity|].
  destruct (read_i2c_block_data b1 _ _ _) as [[e|vals] b2]; [reflexivity|].
  destruct (raw_temperature vals) as [ut|e]; [|reflexivity].
  destruct (write_byte_data b2 _ _ _) as [[e|] b3]; [reflexivity|].
  destruct (getitem _WAIT_PRESSURE (_os_mode self)) as [w|e]; [|reflexivity].
  destruct (read_i2c_block_data b3 _ _ _) as [[e|vals3] b4]; [reflexivity|].
  destruct (raw_pressure vals3 (_os_mode self)) as [up|e]; reflexivity.
Qed.

Lemma acquire_object (self : BMP180) (b : B) :
  object_after (acquire self b) = self.
Proof.
  unfold object_after, acquire, bind, get_self,
    sleep, ret, lift, bus_write, bus_read.
  destruct (write_byte_data b _ _ _) as [[e|] b1]; [reflexivity|].
  destruct (read_i2c_block_data b1 _ _ _) as [[e|vals] b2]; [reflexivity|].
  destruct (raw_temperature vals) as [ut|e]; [|reflexivity].
  destruct (write_byte_data b2 _ _ _) as [[e|] b3]; [reflexivity|].
  destruct (getitem _WAIT_PRESSURE (_os_mode self)) as [w|e]; [|reflexivity].
  destruct (read_i2c_block_data b3 _ _ _) as [[e|vals3] b4]; [reflexivity|].
  destruct (raw_pressure vals3 (_os_mode self)) as [up|e]; reflexivity.
Qed.

Lemma compensate_and_store_run (self : BMP180) (b : B) (ut up : Z) :
  compensate_and_store ut up self b =
  match temperature_of self ut with
  | Raise e => (Raise e, self, b)
  | Ok t =>
    match pressure_of self ut up with
    | Raise e => (Raise e, set_temperature t self, b)
    | Ok pa => (Ok tt, set_pressure pa (set_temperature t self), b)
    end
  end.
Proof.
  unfold compensate_and_store, temperature_of, pressure_of, bind, get_self,
    lift, modify.
  destruct (calc_b5 self ut) as [b5|e]; [|reflexivity].
  destruct (calc_temperature b5) as [t|e]; [|reflexivity].
  destruct (calc_p_of self b5 up) as [p|e]; [|reflexivity].
  destruct (calc_pressure p) as [pa|e]; reflexivity.
Qed.

Lemma update_after_acquire (self s1 : BMP180) (b b' : B) (ut up : Z) :
  acquire self b = (Ok (ut, up), s1, b') ->
  _update_sensor_data self b = compensate_and_store ut up self b'.
Proof.
  intros E. pose proof (acquire_object self b) as O.
  rewrite E in O. cbn in O. subst s1.
  rewrite update_split. unfold bind at 1. rewrite E. reflexivity.
Qed.

Lemma acquired_acquire (self : BMP180) (b b4 : B) (vals2 vals3 : list byte)
    (ut up : Z) (wait : float) :
  acquired self b vals2 vals3 b4 ->
  raw_temperature vals2 = Ok ut ->
  getitem _WAIT_PRESSURE (_os_mode self) = Ok wait ->
  raw_pressure vals3 (_os_mode self) = Ok up ->
  acquire self b = (Ok (ut, up), self, b4).
Proof.
  intros [b1 b2 b3 W1 R1 W2 R2] UT WT UP.
  unfold acquire, bind, get_self, sleep, ret, lift, bus_write, bus_read.
  rewrite W1, R1, UT, W2, WT, R2, UP. reflexivity.
Qed.

Lemma acquired_update (self : BMP180) (b b4 : B) (vals2 vals3 : list byte) :
  acquired self b vals2 vals3 b4 ->
  outcome (_update_sensor_data self b) = cycle_outcome self vals2 vals3.
Proof.
  intros [b1 b2 b3 W1 R1 W2 R2].
  rewrite update_split.
  unfold cycle_outcome, outcome, acquire, bind, get_self, sleep, ret, lift,
    bus_write, bus_read.
  rewrite W1, R1.
  destruct (raw_temperature vals2) as [ut|e]; [|reflexivity].
  rewrite W2.
  destruct (getitem _WAIT_PRESSURE (_os_mode self)) as [w|e]; [|reflexivity].
  rewrite R2.
  destruct (raw_pressure vals3 (_os_mode self)) as [up|e]; [|reflexivity].
  cbn [fst snd]. rewrite compensate_and_store_run.
  destruct (temperature_of self ut) as [t|e]; [|reflexivity].
  destruct (pressure_of self ut up) as [pa|e]; reflexivity.
Qed.

Lemma temperature_run (self : BMP180) (b : B) :
  temperature self b =
  match _update_sensor_data self b with
  | (Ok _, s', b') => (Ok (_temperature s'), s', b')
  | (Raise e, s', b') => (Raise e, s', b')
  end.
Proof.
  unfold temperature, bind, get_self, ret.
  destruct (_update_sensor_data self b) as [[[u|e] s'] b']; reflexivity.
Qed.

Lemma pressure_run (self : BMP180) (b : B) :
  pressure self b =
  match _update_sensor_data self b with
  | (Ok _, s', b') => (Ok (_pressure s'), s', b')
  | (Raise e, s', b') => (Raise e, s', b')
  end.
Proof.
  unfold pressure, bind, get_self, ret.
  destruct (_update_sensor_data self b) as [[[u|e] s'] b']; reflexivity.
Qed.

Lemma altitude_run (self : BMP180) (b : B) :
  altitude self b =
  match _update_sensor_data self b with
  | (Ok _, s', b') =>
      match _pressure s' with
      | None => (Raise TypeError, s', b')
      | Some p => (Altitude.altitude_of (Altitude.float_R p), s', b')
      end
  | (Raise e, s', b') => (Raise e, s', b')
  end.
Proof.
  unfold altitude, bind, get_self, raise, lift.
  destruct (_update_sensor_data self b) as [[[u|e] s'] b']; [|reflexivity].
  destruct (_pressure s'); reflexivity.
Qed.

End CycleFacts.

(** * The worked example (C1) *)

(** The pressure of the worked example, as the code computes it. *)
Lemma reference_pressure :
  pressure_of reference_driver 27898 23843 = Ok 699.65%float.
Proof. vm_compute. reflexivity. Qed.

(** C1 as stated fails: with the reference coefficients, UT = 27898 and
    UP = 23843 in single mode, the stored pressure is not 69964.0. *)
Lemma C1_reference_pressure_is_not_69964 :
  ~ (temperature_of reference_driver 27898 = Ok 15%float /\
     pressure_of reference_driver 27898 23843 = Ok 69964%float).
Proof.
  intros [_ P]. rewrite reference_pressure in P.
  apply Ok_inj in P. revert P. apply float_neq; vm_compute; reflexivity.
Qed.

(** C1, amended.  With the reference coefficients, UT = 27898 and
    UP = 23843 in single mode, the code stores temperature 15.0 and
    pressure 699.65: the intermediate [p] is 70003, the integer result is
    69965 pascals, and the stored value is that integer divided by 100.0,
    in hectopascals.  On a bus that returns these raw codes, the two
    accessors return these values. *)
Theorem C1_reference_reading :
  temperature_of reference_driver 27898 = Ok 15%float /\
  pressure_of reference_driver 27898 23843 = Ok 699.65%float /\
  calc_p_of reference_driver 2399 23843 = Ok 70003 /\
  pressure_pa 70003 = 69965 /\
  returned (temperature reference_driver reference_cycle)
    = Ok (Some 15%float) /\
  returned (pressure reference_driver reference_cycle)
    = Ok (Some 699.65%float).
Proof.
  repeat split; vm_compute; reflexivity.
Qed.

(** The reference driver is what the constructor builds from the
    calibration block. *)
Example reference_construction :
  __init__ (inr reference_calibration_block :: reference_cycle)
           0x77 OS_MODE_SINGLE
  = (Ok reference_driver, reference_cycle).
Proof. reflexivity. Qed.

(** * The raw pressure code (C3) *)

Section C3.
Context {B : Type} {smbus : SMBus B}.

(** C3.  In each of the four oversampling modes, when the data register
    returns the block [b0, b1, b2], the raw pressure code of the cycle is
    [((b0 << 16) | (b1 << 8) | b0) >> (8 - mode)]: the low byte is [b0]
    again, not [b2]. *)
Theorem C3_raw_pressure_combination
    (self : BMP180) (b b' : B) (t0 t1 b0 b1 b2 : byte) :
  valid_mode (_os_mode self) ->
  acquired self b [t0; t1] [b0; b1; b2] b' ->
  let up := Z.shiftr (Z.lor (Z.lor (Z.shiftl (Struct.byte_val b0) 16)
                                   (Z.shiftl (Struct.byte_val b1) 8))
                            (Struct.byte_val b0))
                     (8 - _os_mode self) in
  raw_pressure [b0; b1; b2] (_os_mode self) = Ok up /\
  exists ut, acquire self b = (Ok (ut, up), self, b').
Proof.
  intros V A up.
  assert (UP : raw_pressure [b0; b1; b2] (_os_mode self) = Ok up).
  { rewrite raw_pressure_cons. apply rshift_nonneg.
    apply valid_mode_range in V. lia. }
  split; [exact UP|].
  destruct (wait_of_valid_mode _ V) as [w WT].
  eexists. eapply acquired_acquire; eauto. apply raw_temperature_cons.
Qed.
End C3.

Lemma reference_cycle_acquired :
  acquired reference_driver reference_cycle [x6c; xfa] [x5d; x23; x00] [].
Proof. econstructor; reflexivity. Qed.

Lemma C3_witness :
  exists ut, acquire reference_driver reference_cycle
             = (Ok (ut, 23843), reference_driver, []).
Proof.
  exact (proj2 (C3_raw_pressure_combination reference_driver reference_cycle
                  [] x6c xfa x5d x23 x00
                  (or_introl eq_refl) reference_cycle_acquired)).
Defined.

(** * The calibrated temperature (C4) *)

Section C4.
Context {B : Type} {smbus : SMBus B}.

Lemma update_stores_temperature (self : BMP180) (b b' : B) (ut up : Z)
    (t : float) :
  acquire self b = (Ok (ut, up), self, b') ->
  temperature_of self ut = Ok t ->
  _temperature (object_after (_update_sensor_data self b)) = Some t.
Proof.
  intros A T. rewrite (update_after_acquire _ _ _ _ _ _ A).
  rewrite compensate_and_store_run, T.
  destruct (pressure_of self ut up); reflexivity.
Qed.

(** C4.  With X1 = ((UT - AC6) * AC5) >> 15 and X1 + MD nonzero, and
    X2 = (MC << 11) / (X1 + MD) the quotient rounded toward minus infinity,
    the cycle stores the temperature ((X1 + X2 + 8) >> 4) / 10.0: the
    integer is in tenths of a degree. *)
Theorem C4_calibrated_temperature
    (self : BMP180) (b b' : B) (ut up : Z) :
  let X1 := Z.shiftr ((ut - _ac6 self) * _ac5 self) 15 in
  let d := X1 + _md self in
  let X2 := Z.shiftl (_mc self) 11 / d in
  let T := Z.shiftr (X1 + X2 + 8) 4 in
  acquire self b = (Ok (ut, up), self, b') ->
  d <> 0 ->
  (0 < d -> X2 * d <= Z.shiftl (_mc self) 11 < (X2 + 1) * d) /\
  (d < 0 -> (X2 + 1) * d < Z.shiftl (_mc self) 11 <= X2 * d) /\
  temperature_of self ut = truediv T 10%float /\
  forall t, truediv T 10%float = Ok t ->
    _temperature (object_after (_update_sensor_data self b)) = Some t.
Proof.
  intros X1 d X2 T A D.
  assert (E : temperature_of self ut = truediv T 10%float).
  { unfold temperature_of. rewrite calc_b5_nonzero by exact D.
    unfold calc_temperature. rewrite temp_tenths_shiftr. reflexivity. }
  split; [|split; [|split]].
  - intros P. subst X2.
    pose proof (Z.mul_div_le (Z.shiftl (_mc self) 11) d P).
    pose proof (Z.mul_succ_div_gt (Z.shiftl (_mc self) 11) d P). lia.
  - intros N. subst X2.
    pose proof (Z.mul_div_ge (Z.shiftl (_mc self) 11) d N).
    pose proof (Z.mul_succ_div_lt (Z.shiftl (_mc self) 11) d N). lia.
  - exact E.
  - intros t Ht. eapply update_stores_temperature; [exact A|].
    rewrite E. exact Ht.
Qed.
End C4.

Lemma reference_cycle_acquire :
  acquire reference_driver reference_cycle
  = (Ok (27898, 23843), reference_driver, []).
Proof. reflexivity. Qed.

Lemma C4_witness :
  _temperature (object_after (_update_sensor_data reference_driver
                                                  reference_cycle))
  = Some 15%float.
Proof.
  refine (proj2 (proj2 (proj2
    (C4_calibrated_temperature reference_driver reference_cycle [] 27898 23843
       reference_cycle_acquire _))) 15%float _).
  - vm_compute. discriminate.
  - vm_compute. reflexivity.
Defined.

(** * The oversampling mode (C7) *)

Lemma valid_mode_test (m : Z) :
  (m =? OS_MODE_SINGLE) || (m =? OS_MODE_2) || (m =? OS_MODE_4)
  || (m =? OS_MODE_8) = true <-> valid_mode m.
Proof.
  unfold valid_mode. rewrite !orb_true_iff, !Z.eqb_eq. tauto.
Qed.

Section C7.
Context {B : Type}.

(** C7.  Setting the oversampling mode to a value outside the four modes
    raises (the assertion error is the code's InvalidModeError) and leaves
    the object, its mode included, as it was; setting it to one of the four
    stores exactly that value. *)
Theorem C7_os_mode_setter (self : BMP180) (b : B) (m : Z) :
  (~ valid_mode m ->
     os_mode_setter m self b = (Raise AssertionError, self, b)) /\
  (valid_mode m ->
     os_mode_setter m self b = (Ok tt, set_os_mode m self, b) /\
     _os_mode (set_os_mode m self) = m /\
     os_mode (set_os_mode m self) b = (Ok m, set_os_mode m self, b)).
Proof.
  unfold os_mode_setter. split; intros V.
  - destruct (_ || _) eqn:E; [|reflexivity].
    apply valid_mode_test in E. contradiction.
  - apply valid_mode_test in V. rewrite V. repeat split.
Qed.
End C7.

Lemma C7_witness :
  os_mode_setter 4 reference_driver reference_cycle
    = (Raise AssertionError, reference_driver, reference_cycle) /\
  os_mode_setter OS_MODE_8 reference_driver reference_cycle
    = (Ok tt, set_os_mode OS_MODE_8 reference_driver, reference_cycle).
Proof.
  split.
  - apply (proj1 (C7_os_mode_setter reference_driver reference_cycle 4)).
    unfold valid_mode, OS_MODE_SINGLE, OS_MODE_2, OS_MODE_4, OS_MODE_8. lia.
  - apply (proj2 (C7_os_mode_setter reference_driver reference_cycle
                    OS_MODE_8)).
    unfold valid_mode. tauto.
Defined.

(** * Construction (C8) *)

Lemma byte_val_range (x : byte) : 0 <= Struct.byte_val x <= 255.
Proof.
  unfold Struct.byte_val. pose proof (Byte.to_N_bounded x). lia.
Qed.

Lemma u16_range (hi lo : byte) : uint16 (Struct.u16 hi lo).
Proof.
  unfold uint16, Struct.u16.
  pose proof (byte_val_range hi). pose proof (byte_val_range lo). lia.
Qed.

Lemma s16_range (hi lo : byte) : int16 (Struct.s16 hi lo).
Proof.
  unfold int16, Struct.s16. pose proof (u16_range hi lo) as U.
  unfold uint16 in U. destruct (Z.ltb_spec (Struct.u16 hi lo) 32768); lia.
Qed.

Lemma unpack_22 (buf : list byte) :
  length buf = 22%nat -> exists c, Struct.unpack buf = Ok c.
Proof.
  intros L.
  do 22 (destruct buf as [|? buf]; [discriminate L|]).
  destruct buf; [|discriminate L].
  eexists. reflexivity.
Qed.

Lemma unpack_calibrated (buf : list byte) (c : Struct.calib) (a m : Z) :
  Struct.unpack buf = Ok c -> calibrated (driver_of a c m).
Proof.
  intros U.
  do 22 (destruct buf as [|? buf]; [discriminate U|]).
  destruct buf; [|discriminate U].
  unfold Struct.unpack in U. apply Ok_inj in U. subst c.
  unfold calibrated, driver_of. cbn [Struct.c_ac1 Struct.c_ac2 Struct.c_ac3
    Struct.c_ac4 Struct.c_ac5 Struct.c_ac6 Struct.c_b1 Struct.c_b2
    Struct.c_mb Struct.c_mc Struct.c_md _ac1 _ac2 _ac3 _ac4 _ac5 _ac6 _b1 _b2
    _mb _mc _md].
  repeat split; try apply s16_range; apply u16_range.
Qed.

Section C8.
Context {B : Type} {smbus : SMBus B}.

Lemma address_test (a : Z) : (a >? 7) && (a <? 120) = true <-> 7 < a < 120.
Proof. rewrite andb_true_iff, Z.gtb_ltb, !Z.ltb_lt. tauto. Qed.

(** C8, amended.  Whatever the bus, the constructor raises (the assertion
    error is the code's InvalidAddressError) on an address outside
    0x07 < a < 0x78.  On an address inside, it goes on to read the
    calibration block: it succeeds, with the unpacked 16-bit coefficients,
    when the bus returns 22 bytes, and raises the bus error when the read
    fails. *)
Theorem C8_constructor_address (b : B) (a m : Z) :
  (~ 7 < a < 120 -> __init__ b a m = (Raise AssertionError, b)) /\
  (7 < a < 120 ->
     (forall buf b',
        read_i2c_block_data b a _REG_CALIB_OFFSET 22 = (inr buf, b') ->
        length buf = 22%nat ->
        exists c, Struct.unpack buf = Ok c /\
                  __init__ b a m = (Ok (driver_of a c m), b') /\
                  calibrated (driver_of a c m)) /\
     (forall e b',
        read_i2c_block_data b a _REG_CALIB_OFFSET 22 = (inl e, b') ->
        __init__ b a m = (Raise (IOError e), b'))).
Proof.
  unfold __init__, _read_calibration_data. split; intros A.
  - destruct (_ && _) eqn:E; [|reflexivity].
    apply address_test in E. contradiction.
  - apply address_test in A. rewrite A. split.
    + intros buf b' R L. rewrite R.
      destruct (unpack_22 buf L) as [c U]. exists c. rewrite U.
      split; [reflexivity|]. split; [reflexivity|].
      exact (unpack_calibrated buf c a m U).
    + intros e b' R. rewrite R. reflexivity.
Qed.
End C8.

(** C8 as stated fails: address 0x77 is inside the range, and the
    constructor raises when the calibration read fails. *)
Lemma C8_in_range_address_fails_on_a_dead_bus :
  7 < 0x77 < 120 /\
  __init__ ([inl EIO] : script) 0x77 OS_MODE_SINGLE
    = (Raise (IOError EIO), []).
Proof. split; [lia|reflexivity]. Qed.

Lemma C8_witness :
  __init__ ([] : script) 0x78 OS_MODE_SINGLE = (Raise AssertionError, []) /\
  exists c,
    Struct.unpack reference_calibration_block = Ok c /\
    __init__ ([inr reference_calibration_block] : script) 0x77 OS_MODE_SINGLE
      = (Ok (driver_of 0x77 c OS_MODE_SINGLE), []) /\
    calibrated (driver_of 0x77 c OS_MODE_SINGLE).
Proof.
  split.
  - apply (proj1 (C8_constructor_address ([] : script) 0x78 OS_MODE_SINGLE)).
    lia.
  - apply (proj1 (proj2 (C8_constructor_address
             ([inr reference_calibration_block] : script) 0x77
             OS_MODE_SINGLE) ltac:(lia))
             reference_calibration_block []); reflexivity.
Defined.

(** * The third data byte (C10) *)

Section C10.
Context {B : Type} {smbus : SMBus B}.

Lemma temperature_outcome (self : BMP180) (b : B) :
  outcome (temperature self b) =
  match outcome (_update_sensor_data self b) with
  | (Ok _, s') => (Ok (_temperature s'), s')
  | (Raise e, s') => (Raise e, s')
  end.
Proof.
  rewrite temperature_run. unfold outcome.
  destruct (_update_sensor_data self b) as [[[u|e] s'] b']; reflexivity.
Qed.

Lemma pressure_outcome (self : BMP180) (b : B) :
  outcome (pressure self b) =
  match outcome (_update_sensor_data self b) with
  | (Ok _, s') => (Ok (_pressure s'), s')
  | (Raise e, s') => (Raise e, s')
  end.
Proof.
  rewrite pressure_run. unfold outcome.
  destruct (_update_sensor_data self b) as [[[u|e] s'] b']; reflexivity.
Qed.

Lemma altitude_outcome (self : BMP180) (b : B) :
  outcome (altitude self b) =
  match outcome (_update_sensor_data self b) with
  | (Ok _, s') =>
      match _pressure s' with
      | None => (Raise TypeError, s')
      | Some p => (Altitude.altitude_of (Altitude.float_R p), s')
      end
  | (Raise e, s') => (Raise e, s')
  end.
Proof.
  rewrite altitude_run. unfold outcome.
  destruct (_update_sensor_data self b) as [[[u|e] s'] b']; [|reflexivity].
  cbn [fst]. destruct (_pressure s'); reflexivity.
Qed.

Lemma cycle_outcome_third_byte (self : BMP180) (vals : list byte)
    (b0 b1 b2 b2' : byte) :
  cycle_outcome self vals [b0; b1; b2]
  = cycle_outcome self vals [b0; b1; b2'].
Proof. unfold cycle_outcome. rewrite !raw_pressure_cons. reflexivity. Qed.

(** C10.  Two cycles whose transfers succeed with the same data but for
    the third byte of the pressure block leave the same object and return
    the same result, in the update and in each accessor. *)
Theorem C10_third_byte_never_read
    (self : BMP180) (b c b' c' : B) (vals : list byte)
    (b0 b1 b2 b2' : byte) :
  acquired self b vals [b0; b1; b2] b' ->
  acquired self c vals [b0; b1; b2'] c' ->
  outcome (_update_sensor_data self b) = outcome (_update_sensor_data self c)
  /\ outcome (temperature self b) = outcome (temperature self c)
  /\ outcome (pressure self b) = outcome (pressure self c)
  /\ outcome (altitude self b) = outcome (altitude self c).
Proof.
  intros Ab Ac.
  assert (E : outcome (_update_sensor_data self b)
              = outcome (_update_sensor_data self c)).
  { rewrite (acquired_update _ _ _ _ _ Ab), (acquired_update _ _ _ _ _ Ac).
    apply cycle_outcome_third_byte. }
  rewrite temperature_outcome, pressure_outcome, altitude_outcome.
  rewrite temperature_outcome, pressure_outcome, altitude_outcome.
  rewrite E. repeat split.
Qed.
End C10.

Lemma reference_cycle_ff_acquired :
  acquired reference_driver reference_cycle_ff [x6c; xfa] [x5d; x23; xff] [].
Proof. econstructor; reflexivity. Qed.

Lemma C10_witness :
  outcome (pressure reference_driver reference_cycle)
  = outcome (pressure reference_driver reference_cycle_ff).
Proof.
  exact (proj1 (proj2 (proj2 (C10_third_byte_never_read reference_driver
           reference_cycle reference_cycle_ff [] [] _ _ _ _ _
           reference_cycle_acquired reference_cycle_ff_acquired)))).
Defined.

(** * Transport failures (C6) *)

(** ** Which exceptions the arithmetic can raise *)

Lemma floordiv_raises (a b : Z) (e : exn) :
  floordiv a b = Raise e -> e = ZeroDivisionError.
Proof. unfold floordiv. destruct (b =? 0); congruence. Qed.

Lemma lshift_raises (a n : Z) (e : exn) :
  lshift a n = Raise e -> e = ValueError.
Proof. unfold lshift. destruct (n <? 0); congruence. Qed.

Lemma rshift_raises (a n : Z) (e : exn) :
  rshift a n = Raise e -> e = ValueError.
Proof. unfold rshift. destruct (n <? 0); congruence. Qed.

Lemma getitem_raises {A} (l : list A) (i : Z) (e : exn) :
  getitem l i = Raise e -> e = IndexError.
Proof.
  unfold getitem. destruct (_ && _); [|congruence].
  destruct (nth_error _ _); congruence.
Qed.

Lemma truediv_raises (n : Z) (d : float) (e : exn) :
  truediv n d = Raise e -> e = OverflowError \/ e = ZeroDivisionError.
Proof.
  unfold truediv, float_of_int. destruct (Z.abs n <? float_overflow).
  - destruct (PrimFloat.eqb d 0); [|discriminate]. intros [= <-]. tauto.
  - intros [= <-]. tauto.
Qed.

Lemma raw_temperature_raises (vals : list byte) (e : exn) :
  raw_temperature vals = Raise e -> ~ from_bus e.
Proof.
  unfold raw_temperature.
  destruct (getitem vals 0) eqn:G0;
    [|intros [= <-]; apply getitem_raises in G0; subst; exact (fun F => F)].
  destruct (getitem vals 1) eqn:G1;
    [discriminate|].
  intros [= <-]. apply getitem_raises in G1. subst. exact (fun F => F).
Qed.

Lemma raw_pressure_raises (vals : list byte) (m : Z) (e : exn) :
  raw_pressure vals m = Raise e -> ~ from_bus e.
Proof.
  unfold raw_pressure.
  destruct (getitem vals 0) eqn:G0;
    [|intros [= <-]; apply getitem_raises in G0; subst; exact (fun F => F)].
  destruct (getitem vals 1) eqn:G1;
    [|intros [= <-]; apply getitem_raises in G1; subst; exact (fun F => F)].
  intros R. apply rshift_raises in R. subst. exact (fun F => F).
Qed.

Lemma temperature_of_raises (self : BMP180) (ut : Z) (e : exn) :
  temperature_of self ut = Raise e -> ~ from_bus e.
Proof.
  unfold temperature_of, calc_b5, temp_x2, calc_temperature.
  destruct (floordiv _ _) eqn:F.
  - intros T. apply truediv_raises in T. destruct T; subst; exact (fun F => F).
  - intros [= <-]. apply floordiv_raises in F. subst. exact (fun F => F).
Qed.

Lemma calc_p_of_raises (self : BMP180) (b5 up : Z) (e : exn) :
  calc_p_of self b5 up = Raise e -> ~ from_bus e.
Proof.
  unfold calc_p_of, calc_b3, calc_b7, calc_p.
  destruct (lshift _ _) eqn:L;
    [|intros [= <-]; apply lshift_raises in L; subst; exact (fun F => F)].
  destruct (rshift _ _) eqn:R;
    [|intros [= <-]; apply rshift_raises in R; subst; exact (fun F => F)].
  destruct (_ <? _).
  - intros F. apply floordiv_raises in F. subst. exact (fun F => F).
  - destruct (floordiv _ _) eqn:F; [discriminate|].
    intros [= <-]. apply floordiv_raises in F. subst. exact (fun F => F).
Qed.

Lemma pressure_of_raises (self : BMP180) (ut up : Z) (e : exn) :
  pressure_of self ut up = Raise e -> ~ from_bus e.
Proof.
  unfold pressure_of.
  pose proof (temperature_of_raises self ut) as T. unfold temperature_of in T.
  destruct (calc_b5 self ut) as [b5|e0]; [|exact (T e)].
  destruct (calc_temperature b5) as [t|e0]; [|exact (T e)].
  destruct (calc_p_of self b5 up) as [p|e0] eqn:P.
  - unfold calc_pressure. intros D. apply truediv_raises in D.
    destruct D; subst; exact (fun F => F).
  - intros [= <-]. exact (calc_p_of_raises _ _ _ _ P).
Qed.

Lemma altitude_of_raises (p : R) (e : exn) :
  Altitude.altitude_of p = Raise e -> e = ValueError.
Proof.
  unfold Altitude.altitude_of, Altitude.math_log.
  destruct (Rle_dec _ _); congruence.
Qed.

Section C6.
Context {B : Type} {smbus : SMBus B}.

Lemma update_transport_failure (self : BMP180) (b b' : B) (e : Z) :
  transport_failure self b e b' ->
  _update_sensor_data self b = (Raise (IOError e), self, b').
Proof.
  intros F.
  unfold _update_sensor_data, bind, get_self, sleep, ret, lift, bus_write,
    bus_read.
  fold temperature_command. fold (pressure_command (_os_mode self)).
  destruct F as [W1 | b1 W1 R1 | b1 b2 vals ut W1 R1 UT W2
                | b1 b2 b3 vals ut wait W1 R1 UT W2 WT R2].
  - rewrite W1. reflexivity.
  - rewrite W1, R1. reflexivity.
  - rewrite W1, R1, UT, W2. reflexivity.
  - rewrite W1, R1, UT, W2, WT, R2. reflexivity.
Qed.

Lemma update_io_error (self s' : BMP180) (b b' : B) (e : Z) :
  _update_sensor_data self b = (Raise (IOError e), s', b') ->
  s' = self /\ transport_failure self b e b'.
Proof.
  rewrite update_split.
  unfold acquire, bind, get_self, sleep, ret, lift, bus_write, bus_read.
  destruct (write_byte_data b _ _ _) as [[e1|] b1] eqn:W1.
  { intros [= <- <- <-]. split; [reflexivity|].
    apply Fail_temperature_command. exact W1. }
  destruct (read_i2c_block_data b1 _ _ _) as [[e1|vals] b2] eqn:R1.
  { intros [= <- <- <-]. split; [reflexivity|].
    eapply Fail_temperature_read; eassumption. }
  destruct (raw_temperature vals) as [ut|e1] eqn:UT.
  2:{ intros [= -> <- <-]. apply raw_temperature_raises in UT.
      destruct UT. exact I. }
  destruct (write_byte_data b2 _ _ _) as [[e1|] b3] eqn:W2.
  { intros [= <- <- <-]. split; [reflexivity|].
    eapply Fail_pressure_command; eassumption. }
  destruct (getitem _WAIT_PRESSURE (_os_mode self)) as [w|e1] eqn:WT.
  2:{ intros [= -> <- <-]. apply getitem_raises in WT. discriminate. }
  destruct (read_i2c_block_data b3 _ _ _) as [[e1|vals3] b4] eqn:R2.
  { intros [= <- <- <-]. split; [reflexivity|].
    eapply Fail_pressure_read; eassumption. }
  destruct (raw_pressure vals3 (_os_mode self)) as [up|e1] eqn:UP.
  2:{ intros [= -> <- <-]. apply raw_pressure_raises in UP.
      destruct UP. exact I. }
  cbn [fst snd]. rewrite compensate_and_store_run.
  destruct (temperature_of self ut) as [t|e1] eqn:T.
  2:{ intros [= -> <- <-]. apply temperature_of_raises in T.
      destruct T. exact I. }
  destruct (pressure_of self ut up) as [pa|e1] eqn:P; [discriminate|].
  intros [= -> <- <-]. apply pressure_of_raises in P. destruct P. exact I.
Qed.

(** C6.  When a transfer of the cycle fails, each accessor raises that bus
    error, returns no value, and leaves the object as it was before the
    call; and an accessor raises a bus error only when a transfer failed,
    the object being unchanged then. *)
Theorem C6_transport_failure_propagates (self : BMP180) (b : B) :
  (forall e b',
     transport_failure self b e b' ->
     temperature self b = (Raise (IOError e), self, b') /\
     pressure self b = (Raise (IOError e), self, b') /\
     altitude self b = (Raise (IOError e), self, b')) /\
  (forall e,
     returned (temperature self b) = Raise (IOError e) \/
     returned (pressure self b) = Raise (IOError e) \/
     returned (altitude self b) = Raise (IOError e) ->
     exists b', transport_failure self b e b' /\
                object_after (temperature self b) = self /\
                object_after (pressure self b) = self /\
                object_after (altitude self b) = self).
Proof.
  split.
  - intros e b' F. apply update_transport_failure in F.
    rewrite temperature_run, pressure_run, altitude_run, F. repeat split.
  - intros e H.
    assert (U : exists s' b',
               _update_sensor_data self b = (Raise (IOError e), s', b')).
    { rewrite temperature_run, pressure_run, altitude_run in H.
      destruct (_update_sensor_data self b) as [[[u|e1] s'] b'].
      - destruct H as [H | [H | H]]; try discriminate H.
        destruct (_pressure s'); [|discriminate H].
        cbn [returned fst] in H. apply altitude_of_raises in H.
        discriminate H.
      - exists s', b'. cbn [returned fst] in H.
        destruct H as [H | [H | H]]; injection H as ->; reflexivity. }
    destruct U as (s' & b' & U).
    destruct (update_io_error _ _ _ _ _ U) as [-> F].
    exists b'. split; [exact F|].
    rewrite temperature_run, pressure_run, altitude_run, U. repeat split.
Qed.
End C6.

Lemma faulty_cycle_fails :
  transport_failure driver_with_readings faulty_cycle EREMOTEIO [].
Proof. eapply Fail_pressure_read; reflexivity. Qed.

Lemma C6_witness :
  temperature driver_with_readings faulty_cycle
    = (Raise (IOError EREMOTEIO), driver_with_readings, []) /\
  pressure driver_with_readings faulty_cycle
    = (Raise (IOError EREMOTEIO), driver_with_readings, []) /\
  altitude driver_with_readings faulty_cycle
    = (Raise (IOError EREMOTEIO), driver_with_readings, []).
Proof.
  exact (proj1 (C6_transport_failure_propagates driver_with_readings
                  faulty_cycle) EREMOTEIO [] faulty_cycle_fails).
Defined.

(** * The pressure pipeline against the specification (C2) *)

(** One shift of a sum is the sum of the shifts, or one more. *)
Lemma shiftr_add_carry (a c n : Z) :
  0 <= n ->
  0 <= Z.shiftr (a + c) n - (Z.shiftr a n + Z.shiftr c n) <= 1.
Proof.
  intros N. rewrite !Z.shiftr_div_pow2 by exact N.
  assert (P : 0 < 2 ^ n) by (apply Z.pow_pos_nonneg; lia).
  generalize dependent (2 ^ n). intros k P.
  pose proof (Z.div_mod a k). pose proof (Z.div_mod c k).
  pose proof (Z.div_mod (a + c) k).
  pose proof (Z.mod_pos_bound a k P). pose proof (Z.mod_pos_bound c k P).
  pose proof (Z.mod_pos_bound (a + c) k P). nia.
Qed.

(** C2, amended.  The code computes the first X3 as one shift of the sum,
    (B2 * (B6*B6 >> 12) + AC2 * B6) >> 11, which is the specification's
    X1 + X2 or that plus one.  In a valid mode, the stored pressure is that
    of the specification's pipeline over unbounded integers whenever this
    X3 and the [b1] term of B4 coincide with the specification's on the
    input. *)
Theorem C2_pressure_up_to_grouping (self : BMP180) (ut up : Z) :
  (forall b6,
     b3_x3 self b6
     = Z.shiftr (_b2 self * Z.shiftr (b6 * b6) 12 + _ac2 self * b6) 11 /\
     0 <= b3_x3 self b6 - Spec.X3_of_B3 (coefficients self) b6 <= 1) /\
  (valid_mode (_os_mode self) ->
   (forall b5, calc_b5 self ut = Ok b5 ->
      b3_x3 self (b5 - 4000) = Spec.X3_of_B3 (coefficients self) (b5 - 4000)
      /\ b4_x2 self (b5 - 4000)
         = Spec.X2_of_B4 (coefficients self) (b5 - 4000)) ->
   pressure_of self ut up
   = Spec.pressurePa Spec.no_cast (coefficients self) ut up (_os_mode self)).
Proof.
  split.
  - intros b6. split; [reflexivity|].
    unfold b3_x3, Spec.X3_of_B3. cbn [coefficients Struct.c_b2 Struct.c_ac2].
    apply shiftr_add_carry. lia.
  - intros V G. unfold pressure_of, Spec.pressurePa, Spec.B5_of.
    cbn [coefficients Struct.c_ac6 Struct.c_ac5 Struct.c_mc Struct.c_md].
    unfold calc_b5, temp_x2, temp_x1 in *.
    destruct (floordiv _ _) as [x2|e]; [|reflexivity].
    specialize (G _ eq_refl). destruct G as [G3 G2].
    unfold calc_temperature. rewrite temp_tenths_shiftr.
    destruct (truediv _ 10%float) as [t|e]; [|reflexivity].
    unfold calc_p_of. rewrite calc_b3_valid by exact V.
    rewrite calc_b7_valid by exact V.
    unfold Spec.pressurePa_hundredths, calc_b4, b4_x3, Spec.no_cast.
    rewrite G3, G2.
    cbn [coefficients Struct.c_ac1 Struct.c_ac3 Struct.c_ac4].
    unfold calc_p.
    match goal with |- context [if ?c then _ else _] => destruct c end.
    + destruct (floordiv _ _) as [p|e]; [|reflexivity].
      unfold calc_pressure, pressure_pa. rewrite Z.pow_2_r. reflexivity.
    + destruct (floordiv _ _) as [q|e]; [|reflexivity].
      unfold calc_pressure, pressure_pa. rewrite Z.pow_2_r. reflexivity.
Qed.

(** C2 as stated fails: with the reference coefficients, UT = 27971 and
    UP = 23843 in single mode, the code stores 700.55 where the
    specification's pipeline gives 700.58, with or without the unsigned
    casts. *)
Lemma C2_code_differs_from_spec_pipeline :
  pressure_of reference_driver 27971 23843
  <> Spec.pressurePa Spec.no_cast reference_coefficients 27971 23843
                     OS_MODE_SINGLE /\
  pressure_of reference_driver 27971 23843
  <> Spec.pressurePa Spec.cast_u32 reference_coefficients 27971 23843
                     OS_MODE_SINGLE.
Proof.
  assert (C : pressure_of reference_driver 27971 23843 = Ok 700.55%float)
    by (vm_compute; reflexivity).
  assert (S1 : Spec.pressurePa Spec.no_cast reference_coefficients 27971 23843
                 OS_MODE_SINGLE = Ok 700.58%float)
    by (vm_compute; reflexivity).
  assert (S2 : Spec.pressurePa Spec.cast_u32 reference_coefficients 27971
                 23843 OS_MODE_SINGLE = Ok 700.58%float)
    by (vm_compute; reflexivity).
  rewrite C, S1, S2.
  assert (N : 700.55%float <> 700.58%float)
    by (apply float_neq; vm_compute; reflexivity).
  split; intros E; apply Ok_inj in E; exact (N E).
Qed.

(** At this input the sum of the two shifted terms is 53 and the shifted
    sum 54, while both groupings of the [b1] term give 52. *)
Example grouping_at_27971 :
  calc_b5 reference_driver 27971 = Ok 2494 /\
  b3_x3 reference_driver (2494 - 4000) = 54 /\
  Spec.X3_of_B3 reference_coefficients (2494 - 4000) = 53 /\
  b4_x2 reference_driver (2494 - 4000) = 52 /\
  Spec.X2_of_B4 reference_coefficients (2494 - 4000) = 52.
Proof. repeat split; vm_compute; reflexivity. Qed.

(** The [b1] term of B4 is regrouped too: the code shifts the product
    [b1 * b6 * b6], the specification multiplies [b1] by the shifted square.
    At UT = 27910 this alone changes the stored pressure. *)
Example b1_grouping_at_27910 :
  calc_b5 reference_driver 27910 = Ok 2414 /\
  b3_x3 reference_driver (2414 - 4000)
    = Spec.X3_of_B3 reference_coefficients (2414 - 4000) /\
  b4_x2 reference_driver (2414 - 4000) = 58 /\
  Spec.X2_of_B4 reference_coefficients (2414 - 4000) = 57 /\
  pressure_of reference_driver 27910 23843 = Ok 699.77%float /\
  Spec.pressurePa Spec.no_cast reference_coefficients 27910 23843
                  OS_MODE_SINGLE = Ok 699.79%float.
Proof. repeat split; vm_compute; reflexivity. Qed.

Lemma C2_witness :
  pressure_of reference_driver 27898 23843
  = Spec.pressurePa Spec.no_cast (coefficients reference_driver) 27898 23843
                    (_os_mode reference_driver).
Proof.
  apply (proj2 (C2_pressure_up_to_grouping reference_driver 27898 23843)).
  - left. reflexivity.
  - intros b5 E. apply Ok_inj in E. subst b5. split; vm_compute; reflexivity.
Defined.

(** * The two divisions (C9) *)

(** ** Magnitudes *)

Lemma fits_weaken (j k : N) (x : Z) : (j <= k)%N -> fits j x -> fits k x.
Proof.
  unfold fits. intros L F.
  assert (2 ^ Z.of_N j <= 2 ^ Z.of_N k) by (apply Z.pow_le_mono_r; lia).
  lia.
Qed.

Lemma fits_add (j k : N) (a b : Z) :
  fits j a -> fits k b -> fits (N.max j k + 1) (a + b).
Proof.
  intros A C.
  apply (fits_weaken j (N.max j k)) in A; [|lia].
  apply (fits_weaken k (N.max j k)) in C; [|lia].
  unfold fits in *. rewrite N2Z.inj_add, Z.pow_add_r by lia.
  change (2 ^ Z.of_N 1) with 2. lia.
Qed.

Lemma fits_opp (k : N) (a : Z) : fits k a -> fits k (- a).
Proof. unfold fits. rewrite Z.abs_opp. tauto. Qed.

Lemma fits_sub (j k : N) (a b : Z) :
  fits j a -> fits k b -> fits (N.max j k + 1) (a - b).
Proof. intros A C. apply fits_add; [exact A|apply fits_opp; exact C]. Qed.

Lemma fits_mul (j k : N) (a b : Z) :
  fits j a -> fits k b -> fits (j + k) (a * b).
Proof.
  unfold fits. intros A C. rewrite Z.abs_mul, N2Z.inj_add, Z.pow_add_r by lia.
  apply Z.mul_le_mono_nonneg; lia.
Qed.

Lemma abs_div_le (a b : Z) : b <> 0 -> Z.abs (a / b) <= Z.abs a.
Proof.
  intros H.
  destruct (Z.lt_total b 0) as [N | [E | P]]; [|contradiction|].
  - pose proof (Z.div_mod a b H). pose proof (Z.mod_neg_bound a b N). nia.
  - pose proof (Z.div_mod a b H). pose proof (Z.mod_pos_bound a b P). nia.
Qed.

Lemma fits_div (k : N) (a b : Z) : b <> 0 -> fits k a -> fits k (a / b).
Proof. unfold fits. intros H A. pose proof (abs_div_le a b H). lia. Qed.

Lemma fits_shiftr (k : N) (a n : Z) :
  0 <= n -> fits k a -> fits k (Z.shiftr a n).
Proof.
  intros N A. rewrite Z.shiftr_div_pow2 by exact N. apply fits_div; [|exact A].
  apply Z.pow_nonzero; lia.
Qed.

Lemma fits_shiftl (k : N) (a n : Z) :
  0 <= n -> fits k a -> fits (k + Z.to_N n) (Z.shiftl a n).
Proof.
  intros N A. rewrite Z.shiftl_mul_pow2 by exact N. apply fits_mul; [exact A|].
  unfold fits. rewrite Z2N.id by exact N.
  rewrite Z.abs_eq; [lia|]. apply Z.pow_nonneg. lia.
Qed.

Lemma fits_literal (c : Z) : fits (Z.to_N (Z.log2_up (Z.abs c))) c.
Proof.
  unfold fits. rewrite Z2N.id by apply Z.log2_up_nonneg.
  destruct (Z_le_gt_dec (Z.abs c) 1) as [S|L].
  - assert (0 < 2 ^ Z.log2_up (Z.abs c))
      by (apply Z.pow_pos_nonneg; [lia|apply Z.log2_up_nonneg]).
    lia.
  - apply Z.log2_up_spec. lia.
Qed.

Lemma fits_bound (k : N) (x lo hi : Z) :
  lo <= x <= hi -> (Z.abs lo <=? 2 ^ Z.of_N k) = true ->
  (Z.abs hi <=? 2 ^ Z.of_N k) = true -> fits k x.
Proof. unfold fits. rewrite !Z.leb_le. lia. Qed.

Lemma fits_float (k : N) (x : Z) :
  fits k x -> (k <=? 1000)%N = true ->
  (Z.abs x <? float_overflow) = true.
Proof.
  intros F K. apply N.leb_le in K. apply (fits_weaken k 1000) in F; [|exact K].
  unfold fits in F. apply Z.ltb_lt.
  assert (2 ^ Z.of_N 1000 < float_overflow) by (vm_compute; reflexivity).
  lia.
Qed.

Lemma truediv_fits (k : N) (x : Z) (d : float) :
  fits k x -> (k <=? 1000)%N = true -> PrimFloat.eqb d 0 = false ->
  truediv x d
  = Ok (PrimFloat.div (SF2Prim (binary_normalize prec emax x 0 false)) d).
Proof.
  intros F K D. unfold truediv, float_of_int.
  rewrite (fits_float k x F K), D. reflexivity.
Qed.

(** Bottom-up search for the magnitude of an expression. *)
Ltac fits :=
  first
    [ eassumption
    | lazymatch goal with
      | |- fits _ (_ + _) => eapply fits_add; fits
      | |- fits _ (_ - _) => eapply fits_sub; fits
      | |- fits _ (_ * _) => eapply fits_mul; fits
      | |- fits _ (Z.shiftr _ _) => eapply fits_shiftr; [lia | fits]
      | |- fits _ (Z.shiftl _ _) => eapply fits_shiftl; [lia | fits]
      | |- fits _ (_ / _) => eapply fits_div; [first [assumption | lia] | fits]
      | |- fits _ _ => apply fits_literal
      end ].

Lemma int16_fits (x : Z) : int16 x -> fits 16 x.
Proof. intros H. apply (fits_bound 16 x (-32768) 32767 H); reflexivity. Qed.

Lemma uint16_fits (x : Z) : uint16 x -> fits 16 x.
Proof. intros H. apply (fits_bound 16 x 0 65535 H); reflexivity. Qed.

(** *** The ranges of the raw codes *)

Lemma lor_range (n a b : Z) :
  0 <= n -> 0 <= a < 2 ^ n -> 0 <= b < 2 ^ n -> 0 <= Z.lor a b < 2 ^ n.
Proof.
  intros N A C.
  assert (P : 0 <= Z.lor a b) by (apply Z.lor_nonneg; lia).
  split; [exact P|].
  destruct (Z.eq_dec (Z.lor a b) 0) as [E|E]; [lia|].
  apply Z.log2_lt_pow2; [lia|].
  rewrite Z.log2_lor by lia.
  destruct (Z.eq_dec a 0) as [->|Ha]; destruct (Z.eq_dec b 0) as [->|Hb].
  - cbn in E. contradiction.
  - rewrite Z.max_r by (cbn; apply Z.log2_nonneg).
    apply Z.log2_lt_pow2; lia.
  - rewrite Z.max_l by (cbn; apply Z.log2_nonneg).
    apply Z.log2_lt_pow2; lia.
  - apply Z.max_lub_lt; apply Z.log2_lt_pow2; lia.
Qed.

Lemma shiftl_byte_range (x : byte) (n : Z) :
  0 <= n -> 0 <= Z.shiftl (Struct.byte_val x) n < 2 ^ (n + 8).
Proof.
  intros N. pose proof (byte_val_range x). rewrite Z.shiftl_mul_pow2 by lia.
  rewrite Z.pow_add_r by lia. change (2 ^ 8) with 256.
  assert (0 < 2 ^ n) by (apply Z.pow_pos_nonneg; lia). nia.
Qed.

Lemma getitem_Ok_cons {A} (l : list A) (x : A) :
  getitem l 0 = Ok x -> exists l', l = x :: l'.
Proof.
  destruct l as [|y l]; [discriminate|]. rewrite getitem_0.
  intros E. apply Ok_inj in E. subst. eexists. reflexivity.
Qed.

Lemma raw_temperature_range (vals : list byte) (ut : Z) :
  raw_temperature vals = Ok ut -> 0 <= ut < 65536.
Proof.
  unfold raw_temperature.
  destruct (getitem vals 0) as [v0|]; [|discriminate].
  destruct (getitem vals 1) as [v1|]; [|discriminate].
  intros E. apply Ok_inj in E. subst ut.
  change 65536 with (2 ^ 16). apply lor_range; [lia| |].
  - apply (shiftl_byte_range v0 8). lia.
  - pose proof (byte_val_range v1). lia.
Qed.

Lemma raw_pressure_range (vals : list byte) (m up : Z) :
  raw_pressure vals m = Ok up -> 0 <= up < 2 ^ 24.
Proof.
  unfold raw_pressure, rshift.
  destruct (getitem vals 0) as [v0|]; [|discriminate].
  destruct (getitem vals 1) as [v1|]; [|discriminate].
  destruct (Z.ltb_spec (8 - m) 0) as [|N]; [discriminate|].
  intros E. apply Ok_inj in E. subst up.
  match goal with |- _ <= Z.shiftr ?w _ < _ =>
    assert (W : 0 <= w < 2 ^ 24) end.
  { apply lor_range; [lia| |].
    - apply lor_range; [lia| |].
      + apply (shiftl_byte_range v0 16). lia.
      + pose proof (shiftl_byte_range v1 8). lia.
    - pose proof (byte_val_range v0). lia. }
  rewrite Z.shiftr_div_pow2 by exact N.
  assert (P : 0 < 2 ^ (8 - m)) by (apply Z.pow_pos_nonneg; lia).
  split.
  - apply Z.div_pos; lia.
  - apply Z.le_lt_trans with (2 := proj2 W).
    apply Z.div_le_upper_bound; [lia|]. nia.
Qed.

Section AcquireRanges.
Context {B : Type} {smbus : SMBus B}.

Lemma acquire_ranges (self s' : BMP180) (b b' : B) (ut up : Z) :
  acquire self b = (Ok (ut, up), s', b') ->
  0 <= ut < 65536 /\ 0 <= up < 2 ^ 24.
Proof.
  unfold acquire, bind, get_self, sleep, ret, lift, bus_write, bus_read.
  destruct (write_byte_data b _ _ _) as [[e1|] b1]; [discriminate|].
  destruct (read_i2c_block_data b1 _ _ _) as [[e1|vals] b2]; [discriminate|].
  destruct (raw_temperature vals) as [ut'|e1] eqn:UT; [|discriminate].
  destruct (write_byte_data b2 _ _ _) as [[e1|] b3]; [discriminate|].
  destruct (getitem _WAIT_PRESSURE (_os_mode self)) as [w|e1];
    [|discriminate].
  destruct (read_i2c_block_data b3 _ _ _) as [[e1|vals3] b4]; [discriminate|].
  destruct (raw_pressure vals3 (_os_mode self)) as [up'|e1] eqn:UP;
    [|discriminate].
  intros E.
  assert (E' : (ut', up') = (ut, up)).
  { exact (f_equal (fun x : result (Z * Z) * BMP180 * B =>
             match fst (fst x) with Ok v => v | Raise _ => (ut', up') end)
             E). }
  injection E' as <- <-. split.
  - exact (raw_temperature_range _ _ UT).
  - exact (raw_pressure_range _ _ _ UP).
Qed.
End AcquireRanges.

Section Magnitudes.

Variable self : BMP180.
Variables ut up : Z.
Hypothesis Cal : calibrated self.
Hypothesis Mode : valid_mode (_os_mode self).
Hypothesis UT : 0 <= ut < 65536.
Hypothesis UP : 0 <= up < 2 ^ 24.

Local Abbreviation d1 := (temp_x1 self ut + _md self).
Local Abbreviation b5 := (temp_x1 self ut + Z.shiftl (_mc self) 11 / d1).

Hypothesis D1 : d1 <> 0.

Lemma b5_fits : fits 34 b5.
Proof.
  destruct Cal as (A1 & A2 & A3 & A4 & A5 & A6 & B1 & B2 & MB & MC & MD).
  apply int16_fits in A1, A2, A3, B1, B2, MB, MC, MD.
  apply uint16_fits in A4, A5, A6.
  assert (U : fits 16 ut) by (apply (fits_bound 16 ut 0 65536); [lia| |];
                              reflexivity).
  unfold temp_x1 in *.
  eapply fits_weaken; [|fits]. vm_compute. discriminate.
Qed.

Lemma temperature_of_total : exists t, temperature_of self ut = Ok t.
Proof.
  unfold temperature_of. rewrite calc_b5_nonzero by exact D1.
  unfold calc_temperature, temp_tenths.
  pose proof b5_fits as F5.
  eexists. eapply truediv_fits; [fits| |reflexivity].
  vm_compute. reflexivity.
Qed.

Lemma p_fits (p : Z) : calc_p_of self b5 up = Ok p -> fits 120 p.
Proof.
  rewrite calc_p_of_valid by exact Mode.
  destruct (Z.eq_dec (calc_b4 self (b5 - 4000)) 0) as [Z4|N4].
  { rewrite Z4, calc_p_zero. discriminate. }
  rewrite calc_p_nonzero by exact N4.
  intros E. apply Ok_inj in E. subst p.
  pose proof b5_fits as F5.
  destruct Cal as (A1 & A2 & A3 & A4 & A5 & A6 & B1 & B2 & MB & MC & MD).
  apply int16_fits in A1, A2, A3, B1, B2, MB, MC, MD.
  apply uint16_fits in A4, A5, A6.
  assert (U : fits 24 up) by (apply (fits_bound 24 up 0 (2 ^ 24)); [lia| |];
                              reflexivity).
  generalize dependent (calc_b4 self (b5 - 4000)). intros b4 N4.
  unfold b3_x3.
  pose proof Mode as M.
  unfold valid_mode, OS_MODE_SINGLE, OS_MODE_2, OS_MODE_4, OS_MODE_8 in M.
  destruct M as [M | [M | [M | M]]]; rewrite M;
    (destruct (_ <? _); (eapply fits_weaken; [|fits]);
     vm_compute; discriminate).
Qed.

Lemma pressure_pa_fits (p : Z) : fits 120 p -> fits 260 (pressure_pa p).
Proof.
  intros F. unfold pressure_pa. rewrite Z.pow_2_r.
  eapply fits_weaken; [|fits]. vm_compute. discriminate.
Qed.

Lemma pressure_of_total :
  calc_b4 self (b5 - 4000) <> 0 -> exists pa, pressure_of self ut up = Ok pa.
Proof.
  intros N4. destruct temperature_of_total as [t T].
  unfold temperature_of in T. unfold pressure_of.
  rewrite calc_b5_nonzero in * by exact D1. rewrite T.
  destruct (calc_p_of self b5 up) as [p|e] eqn:P.
  - unfold calc_pressure. eexists.
    eapply truediv_fits; [exact (pressure_pa_fits p (p_fits p P))| |];
      reflexivity.
  - rewrite calc_p_of_valid, calc_p_nonzero in P by assumption.
    discriminate.
Qed.

Lemma pressure_of_b4_zero :
  calc_b4 self (b5 - 4000) = 0 ->
  pressure_of self ut up = Raise ZeroDivisionError.
Proof.
  intros Z4. destruct temperature_of_total as [t T].
  unfold temperature_of in T. unfold pressure_of.
  rewrite calc_b5_nonzero in * by exact D1. rewrite T.
  rewrite calc_p_of_valid by exact Mode. rewrite Z4, calc_p_zero.
  reflexivity.
Qed.

End Magnitudes.

Section C9.
Context {B : Type} {smbus : SMBus B}.

(** C9.  For calibrated 16-bit coefficients, a valid mode and raw codes read
    from the bus: when X1 + MD = 0 or B4 = 0 the three accessors raise
    ZeroDivisionError; when both are nonzero the cycle completes and the
    accessors return the stored readings. *)
Theorem C9_unguarded_divisions
    (self : BMP180) (b b' : B) (ut up : Z) :
  let d1 := temp_x1 self ut + _md self in
  let b5 := temp_x1 self ut + Z.shiftl (_mc self) 11 / d1 in
  let b4 := calc_b4 self (b5 - 4000) in
  calibrated self ->
  valid_mode (_os_mode self) ->
  acquire self b = (Ok (ut, up), self, b') ->
  (d1 = 0 \/ b4 = 0 ->
     returned (temperature self b) = Raise ZeroDivisionError /\
     returned (pressure self b) = Raise ZeroDivisionError /\
     returned (altitude self b) = Raise ZeroDivisionError) /\
  (d1 <> 0 -> b4 <> 0 ->
     exists t pa,
       let self' := set_pressure pa (set_temperature t self) in
       _update_sensor_data self b = (Ok tt, self', b') /\
       temperature self b = (Ok (Some t), self', b') /\
       pressure self b = (Ok (Some pa), self', b')).
Proof.
  intros d1 b5 b4 Cal Mode A.
  destruct (acquire_ranges _ _ _ _ _ _ A) as [UT UP].
  pose proof (update_after_acquire _ _ _ _ _ _ A) as U.
  rewrite compensate_and_store_run in U.
  split.
  - intros Z.
    assert (E : exists s', _update_sensor_data self b
                           = (Raise ZeroDivisionError, s', b')).
    { destruct (Z.eq_dec d1 0) as [Z1|N1].
      - exists self. rewrite U. unfold temperature_of.
        rewrite calc_b5_zero by exact Z1. reflexivity.
      - destruct Z as [Z1|Z4]; [contradiction|].
        destruct (temperature_of_total self ut Cal UT N1) as [t T].
        exists (set_temperature t self). rewrite U, T.
        rewrite (pressure_of_b4_zero self ut up Cal Mode UT N1 Z4).
        reflexivity. }
    destruct E as [s' E].
    rewrite temperature_run, pressure_run, altitude_run, E. repeat split.
  - intros N1 N4.
    destruct (temperature_of_total self ut Cal UT N1) as [t T].
    destruct (pressure_of_total self ut up Cal Mode UT UP N1 N4) as [pa P].
    exists t, pa. cbn zeta. rewrite T, P in U.
    rewrite temperature_run, pressure_run, U. repeat split.
Qed.
End C9.

Lemma reference_driver_calibrated : calibrated reference_driver.
Proof. unfold calibrated, int16, uint16. cbn. lia. Qed.

Lemma driver_ac4_zero_calibrated : calibrated driver_ac4_zero.
Proof. unfold calibrated, int16, uint16. cbn. lia. Qed.

Lemma ac4_zero_cycle_acquire :
  acquire driver_ac4_zero reference_cycle
  = (Ok (27898, 23843), driver_ac4_zero, []).
Proof. reflexivity. Qed.

Lemma C9_witness :
  returned (pressure driver_ac4_zero reference_cycle)
    = Raise ZeroDivisionError /\
  exists t pa,
    pressure reference_driver reference_cycle
    = (Ok (Some pa), set_pressure pa (set_temperature t reference_driver), []).
Proof.
  split.
  - refine (proj1 (proj2 (proj1
      (C9_unguarded_divisions driver_ac4_zero reference_cycle [] 27898 23843
         driver_ac4_zero_calibrated (or_introl eq_refl)
         ac4_zero_cycle_acquire) _))).
    right. reflexivity.
  - destruct (proj2
      (C9_unguarded_divisions reference_driver reference_cycle [] 27898 23843
         reference_driver_calibrated (or_introl eq_refl)
         reference_cycle_acquire))
      as (t & pa & _ & _ & P).
    + vm_compute. discriminate.
    + vm_compute. discriminate.
    + exists t, pa. exact P.
Defined.

(** * Altitude (C5) *)

Module AltitudeFacts.
Import Altitude.
Local Open Scope R_scope.
Local Abbreviation real := Rdefinitions.R.






Lemma math_log_nonpos (x : real) :
  x <= 0 -> math_log x = Raise ValueError.
Proof.
  intros P. unfold math_log. destruct (Rle_dec x 0); [reflexivity|lra].
Qed.






End AltitudeFacts.




Section C5.

Context {B : Type} {smbus : SMBus B}.
Local Open Scope R_scope.


End C5.



(** * Further properties of the driver *)

(** * What a reading cycle leaves behind *)

Section UpdateShape.

Context {B : Type} {smbus : SMBus B}.

(** The update in one piece: the raw codes, then the two stores. *)
Lemma update_run (self : BMP180) (b : B) :
  _update_sensor_data self b =
  match acquire self b with
  | (Ok (ut, up), _, b1) =>
      match temperature_of self ut with
      | Raise e => (Raise e, self, b1)
      | Ok t =>
        match pressure_of self ut up with
        | Raise e => (Raise e, set_temperature t self, b1)
        | Ok pa => (Ok tt, set_pressure pa (set_temperature t self), b1)
        end
      end
  | (Raise e, _, b1) => (Raise e, self, b1)
  end.
Proof.
  rewrite update_split. unfold bind at 1.
  pose proof (acquire_object self b) as O.
  destruct (acquire self b) as [[[[ut up]|e] s1] b1]; cbn in O; subst s1.
  - cbn [fst snd]. apply compensate_and_store_run.
  - reflexivity.
Qed.

(** The object after an update is the object before, with the temperature
    replaced, or with both readings replaced when the update returns. *)
Lemma update_object_cases (self : BMP180) (b : B) :
  (exists e, returned (_update_sensor_data self b) = Raise e /\
             object_after (_update_sensor_data self b) = self) \/
  (exists e t, returned (_update_sensor_data self b) = Raise e /\
               object_after (_update_sensor_data self b)
               = set_temperature t self) \/
  (exists t pa, returned (_update_sensor_data self b) = Ok tt /\
                object_after (_update_sensor_data self b)
                = set_pressure pa (set_temperature t self)).
Proof.
  rewrite update_run.
  destruct (acquire self b) as [[[[ut up]|e] s1] b1].
  - destruct (temperature_of self ut) as [t|e].
    + destruct (pressure_of self ut up) as [pa|e].
      * right. right. exists t, pa. split; reflexivity.
      * right. left. exists e, t. split; reflexivity.
    + left. exists e. split; reflexivity.
  - left. exists e. split; reflexivity.
Qed.

(** X1. a successful update comes from this cycle's raw codes and replaces
    both readings. *)
Theorem update_success_is_fresh (self s' : BMP180) (b b' : B) :
  _update_sensor_data self b = (Ok tt, s', b') ->
  exists ut up t pa,
    acquire self b = (Ok (ut, up), self, b') /\
    temperature_of self ut = Ok t /\
    pressure_of self ut up = Ok pa /\
    s' = set_pressure pa (set_temperature t self).
Proof.
  rewrite update_run. pose proof (acquire_object self b) as O.
  destruct (acquire self b) as [[[[ut up]|e] s1] b1] eqn:A; cbn in O;
    subst s1; [|discriminate].
  destruct (temperature_of self ut) as [t|e] eqn:T; [|discriminate].
  destruct (pressure_of self ut up) as [pa|e] eqn:P; [|discriminate].
  intros E. exists ut, up, t, pa.
  assert (Eb : b1 = b') by exact (f_equal snd E).
  assert (Es : set_pressure pa (set_temperature t self) = s')
    by exact (f_equal (fun x => snd (fst x)) E).
  subst. repeat split; assumption.
Qed.

(** X2. an accessor that returns, returns a float: never [None]. *)
Theorem accessors_never_return_None (self : BMP180) (b : B) :
  returned (temperature self b) <> Ok None /\
  returned (pressure self b) <> Ok None.
Proof.
  rewrite temperature_run, pressure_run.
  destruct (update_object_cases self b)
    as [(e & R & _) | [(e & t & R & _) | (t & pa & R & O)]];
    destruct (_update_sensor_data self b) as [[[[]|e'] s'] b'];
    cbn [returned object_after fst snd] in *;
    try discriminate R; try (split; discriminate).
  subst s'. split; discriminate.
Qed.

End UpdateShape.

Lemma update_success_is_fresh_witness :
  exists ut up t pa,
    acquire reference_driver reference_cycle
      = (Ok (ut, up), reference_driver, []) /\
    temperature_of reference_driver ut = Ok t /\
    pressure_of reference_driver ut up = Ok pa /\
    set_pressure 699.65%float (set_temperature 15%float reference_driver)
      = set_pressure pa (set_temperature t reference_driver).
Proof.
  apply (update_success_is_fresh reference_driver _ reference_cycle []).
  vm_compute. reflexivity.
Defined.

Lemma same_configuration_refl (s : BMP180) : same_configuration s s.
Proof. repeat split. Qed.

Lemma same_configuration_set_temperature (t : float) (s : BMP180) :
  same_configuration (set_temperature t s) s.
Proof. repeat split. Qed.

Lemma same_configuration_set_pressure (p : float) (s : BMP180) :
  same_configuration (set_pressure p s) s.
Proof. repeat split. Qed.

Lemma same_configuration_trans (s1 s2 s3 : BMP180) :
  same_configuration s1 s2 -> same_configuration s2 s3 ->
  same_configuration s1 s3.
Proof.
  unfold same_configuration. intros (A & C & M) (A' & C' & M').
  repeat split; congruence.
Qed.

Lemma same_configuration_calibrated (s1 s2 : BMP180) :
  same_configuration s1 s2 -> calibrated s2 -> calibrated s1.
Proof.
  intros (_ & C & _). unfold calibrated, coefficients in *.
  injection C as -> -> -> -> -> -> -> -> -> -> ->. exact (fun H => H).
Qed.

Section Configuration.

Context {B : Type} {smbus : SMBus B}.

Lemma update_keeps_configuration (self : BMP180) (b : B) :
  same_configuration (object_after (_update_sensor_data self b)) self.
Proof.
  destruct (update_object_cases self b)
    as [(e & _ & ->) | [(e & t & _ & ->) | (t & pa & _ & ->)]].
  - apply same_configuration_refl.
  - apply same_configuration_set_temperature.
  - eapply same_configuration_trans;
      [apply same_configuration_set_pressure
      |apply same_configuration_set_temperature].
Qed.

(** The accessors leave the object as the update left it. *)
Lemma accessors_object (self : BMP180) (b : B) :
  object_after (temperature self b)
    = object_after (_update_sensor_data self b) /\
  object_after (pressure self b)
    = object_after (_update_sensor_data self b) /\
  object_after (altitude self b)
    = object_after (_update_sensor_data self b).
Proof.
  rewrite temperature_run, pressure_run, altitude_run.
  destruct (_update_sensor_data self b) as [[[[]|e] s'] b'].
  - destruct (_pressure s'); repeat split.
  - repeat split.
Qed.

(** X3. no method changes the address, the coefficients or the mode,
    whatever it returns or raises. *)
Theorem readings_keep_configuration (self : BMP180) (b : B) :
  same_configuration (object_after (_update_sensor_data self b)) self /\
  same_configuration (object_after (temperature self b)) self /\
  same_configuration (object_after (pressure self b)) self /\
  same_configuration (object_after (altitude self b)) self /\
  (calibrated self ->
   calibrated (object_after (_update_sensor_data self b))).
Proof.
  pose proof (update_keeps_configuration self b) as U.
  destruct (accessors_object self b) as (-> & -> & ->).
  split; [exact U|]. split; [exact U|]. split; [exact U|].
  split; [exact U|].
  intros Cal. exact (same_configuration_calibrated _ _ U Cal).
Qed.

End Configuration.

Lemma same_configuration_inputs (s1 s2 : BMP180) :
  same_configuration s1 s2 -> cycle_inputs s1 = cycle_inputs s2.
Proof.
  intros (A & C & M). unfold cycle_inputs, coefficients in *.
  injection C as ? ? ? ? ? ? ? ? ? ? ?. congruence.
Qed.

Lemma with_mb_inputs (mb : Z) (s : BMP180) :
  cycle_inputs (with_mb mb s) = cycle_inputs s.
Proof. reflexivity. Qed.

(** The arithmetic reads the object through [cycle_inputs] only. *)
Lemma compensation_reads_inputs (s1 s2 : BMP180) (ut up : Z) :
  cycle_inputs s1 = cycle_inputs s2 ->
  temperature_of s1 ut = temperature_of s2 ut /\
  pressure_of s1 ut up = pressure_of s2 ut up.
Proof.
  destruct s1, s2. unfold cycle_inputs. cbn.
  intros E. injection E as ? ? ? ? ? ? ? ? ? ? ? ?. subst.
  split; reflexivity.
Qed.

Section Inputs.

Context {B : Type} {smbus : SMBus B}.

Lemma acquire_reads_inputs (s1 s2 : BMP180) (b : B) :
  cycle_inputs s1 = cycle_inputs s2 ->
  returned (acquire s1 b) = returned (acquire s2 b) /\
  bus_after (acquire s1 b) = bus_after (acquire s2 b).
Proof.
  destruct s1, s2. unfold cycle_inputs. cbn.
  intros E. injection E as ? ? ? ? ? ? ? ? ? ? ? ?. subst.
  unfold acquire, bind, get_self, sleep, ret, lift, bus_write, bus_read.
  cbn [_addr _os_mode].
  destruct (write_byte_data b _ _ _) as [[e1|] b1]; [split; reflexivity|].
  destruct (read_i2c_block_data b1 _ _ _) as [[e1|vals] b2];
    [split; reflexivity|].
  destruct (raw_temperature vals) as [ut|e1]; [|split; reflexivity].
  destruct (write_byte_data b2 _ _ _) as [[e1|] b3]; [split; reflexivity|].
  destruct (getitem _WAIT_PRESSURE _) as [w|e1]; [|split; reflexivity].
  destruct (read_i2c_block_data b3 _ _ _) as [[e1|vals3] b4];
    [split; reflexivity|].
  destruct (raw_pressure vals3 _) as [up|e1]; split; reflexivity.
Qed.

(** Two objects with the same inputs go through the same cycle: the same
    result, the same bus, and the same readings stored on top of what each
    object held. *)
Lemma update_reads_inputs (s1 s2 : BMP180) (b : B) :
  cycle_inputs s1 = cycle_inputs s2 ->
  returned (_update_sensor_data s1 b) = returned (_update_sensor_data s2 b) /\
  bus_after (_update_sensor_data s1 b) = bus_after (_update_sensor_data s2 b)
  /\
  ((exists e,
      returned (_update_sensor_data s1 b) = Raise e /\
      object_after (_update_sensor_data s1 b) = s1 /\
      object_after (_update_sensor_data s2 b) = s2) \/
   (exists e t,
      returned (_update_sensor_data s1 b) = Raise e /\
      object_after (_update_sensor_data s1 b) = set_temperature t s1 /\
      object_after (_update_sensor_data s2 b) = set_temperature t s2) \/
   (exists t pa,
      returned (_update_sensor_data s1 b) = Ok tt /\
      object_after (_update_sensor_data s1 b)
        = set_pressure pa (set_temperature t s1) /\
      object_after (_update_sensor_data s2 b)
        = set_pressure pa (set_temperature t s2))).
Proof.
  intros E. rewrite !update_run.
  destruct (acquire_reads_inputs s1 s2 b E) as [R Bq].
  destruct (acquire s1 b) as [[[[ut up]|e] s1'] b1];
    destruct (acquire s2 b) as [[[[ut' up']|e'] s2'] b2];
    cbn [returned bus_after fst snd] in R, Bq; try discriminate R.
  - assert (Ep : (ut, up) = (ut', up')) by exact (Ok_inj _ _ R).
    injection Ep as <- <-. subst b2.
    destruct (compensation_reads_inputs s1 s2 ut up E) as [<- <-].
    destruct (temperature_of s1 ut) as [t|e].
    + destruct (pressure_of s1 ut up) as [pa|e].
      * repeat split. right. right. exists t, pa. repeat split.
      * repeat split. right. left. exists e, t. repeat split.
    + repeat split. left. exists e. repeat split.
  - subst b2. injection R as <-. split; [reflexivity|].
    split; [reflexivity|]. left. exists e. repeat split.
Qed.

Lemma accessors_returned (self : BMP180) (b : B) :
  returned (temperature self b)
  = match returned (_update_sensor_data self b) with
    | Ok _ => Ok (_temperature (object_after (_update_sensor_data self b)))
    | Raise e => Raise e
    end /\
  returned (pressure self b)
  = match returned (_update_sensor_data self b) with
    | Ok _ => Ok (_pressure (object_after (_update_sensor_data self b)))
    | Raise e => Raise e
    end /\
  returned (altitude self b)
  = match returned (_update_sensor_data self b) with
    | Ok _ =>
        match _pressure (object_after (_update_sensor_data self b)) with
        | None => Raise TypeError
        | Some p => Altitude.altitude_of (Altitude.float_R p)
        end
    | Raise e => Raise e
    end /\
  bus_after (temperature self b) = bus_after (_update_sensor_data self b) /\
  bus_after (pressure self b) = bus_after (_update_sensor_data self b) /\
  bus_after (altitude self b) = bus_after (_update_sensor_data self b).
Proof.
  rewrite temperature_run, pressure_run, altitude_run.
  destruct (_update_sensor_data self b) as [[[[]|e] s'] b'].
  - cbn [returned object_after bus_after fst snd].
    destruct (_pressure s'); repeat split.
  - repeat split.
Qed.

(** Two objects with the same inputs read the same values. *)
Lemma accessors_read_inputs (s1 s2 : BMP180) (b : B) :
  cycle_inputs s1 = cycle_inputs s2 ->
  returned (temperature s1 b) = returned (temperature s2 b) /\
  returned (pressure s1 b) = returned (pressure s2 b) /\
  returned (altitude s1 b) = returned (altitude s2 b) /\
  bus_after (temperature s1 b) = bus_after (temperature s2 b) /\
  bus_after (pressure s1 b) = bus_after (pressure s2 b) /\
  bus_after (altitude s1 b) = bus_after (altitude s2 b).
Proof.
  intros E.
  destruct (accessors_returned s1 b) as (-> & -> & -> & -> & -> & ->).
  destruct (accessors_returned s2 b) as (-> & -> & -> & -> & -> & ->).
  destruct (update_reads_inputs s1 s2 b E)
    as (R & Bq & [(e & R1 & _) | [(e & t & R1 & _)
                                 | (t & pa & R1 & O1 & O2)]]);
    rewrite <- R, <- Bq, R1.
  - repeat split.
  - repeat split.
  - rewrite O1, O2. repeat split.
Qed.

(** X4. the readings an object holds never reach a later reading: objects
    that differ only in their stored readings return the same values from
    the same bus. *)
Theorem stored_readings_never_reused (s1 s2 : BMP180) (b : B) :
  same_configuration s1 s2 ->
  returned (temperature s1 b) = returned (temperature s2 b) /\
  returned (pressure s1 b) = returned (pressure s2 b) /\
  returned (altitude s1 b) = returned (altitude s2 b) /\
  bus_after (pressure s1 b) = bus_after (pressure s2 b).
Proof.
  intros C.
  destruct (accessors_read_inputs s1 s2 b (same_configuration_inputs _ _ C))
    as (T & P & A & _ & Bp & _).
  repeat split; assumption.
Qed.

(** X5. [temperature()] followed by [pressure()] runs two cycles: the
    second returns what a driver that never read anything returns on the
    bus the first cycle left. *)
Theorem successive_readings_are_independent (self : BMP180) (b : B) :
  returned (bind temperature (fun _ => pressure) self b)
  = match returned (temperature self b) with
    | Raise e => Raise e
    | Ok _ => returned (pressure self (bus_after (temperature self b)))
    end.
Proof.
  unfold bind at 1.
  pose proof (update_keeps_configuration self b) as K.
  rewrite <- (proj1 (accessors_object self b)) in K.
  destruct (temperature self b) as [[[v|e] s1] b1]; [|reflexivity].
  cbn [returned object_after bus_after fst snd] in *.
  exact (proj1 (proj2 (accessors_read_inputs s1 self b1
                         (same_configuration_inputs _ _ K)))).
Qed.

(** X6. the coefficient MB is read from the device and never used: whatever
    its value, the readings are the same. *)
Theorem mb_is_never_used (mb : Z) (self : BMP180) (b : B) :
  returned (temperature (with_mb mb self) b) = returned (temperature self b)
  /\ returned (pressure (with_mb mb self) b) = returned (pressure self b)
  /\ returned (altitude (with_mb mb self) b) = returned (altitude self b)
  /\ bus_after (pressure (with_mb mb self) b) = bus_after (pressure self b).
Proof.
  destruct (accessors_read_inputs (with_mb mb self) self b
              (with_mb_inputs mb self)) as (T & P & A & _ & Bp & _).
  repeat split; assumption.
Qed.

End Inputs.

Lemma stored_readings_never_reused_witness :
  returned (pressure driver_with_readings reference_cycle)
  = returned (pressure reference_driver reference_cycle).
Proof.
  refine (proj1 (proj2 (stored_readings_never_reused driver_with_readings
                          reference_driver reference_cycle _))).
  repeat split.
Defined.

(** * The oversampling mode the constructor stores *)

Lemma wait_index_range (m : Z) (w : float) :
  getitem _WAIT_PRESSURE m = Ok w -> -4 <= m <= 3.
Proof.
  unfold getitem, _WAIT_PRESSURE. cbn [length Z.of_nat Pos.of_succ_nat
    Pos.succ].
  destruct (Z.ltb_spec m 0).
  - destruct (Z.leb_spec 0 (m + 4)); [lia|discriminate].
  - destruct (Z.leb_spec 0 m); [|discriminate].
    destruct (Z.ltb_spec m 4); [lia|discriminate].
Qed.

Lemma pressure_of_negative_mode (self : BMP180) (ut up : Z) :
  _os_mode self < 0 ->
  exists e, pressure_of self ut up = Raise e.
Proof.
  intros N. unfold pressure_of.
  destruct (calc_b5 self ut) as [b5|e]; [|eexists; reflexivity].
  destruct (calc_temperature b5) as [t|e]; [|eexists; reflexivity].
  unfold calc_p_of, calc_b3, lshift.
  destruct (Z.ltb_spec (_os_mode self) 0); [|lia].
  eexists. reflexivity.
Qed.

Section Mode.

Context {B : Type} {smbus : SMBus B}.

Lemma acquire_wait_index (self s' : BMP180) (b b' : B) (ut up : Z) :
  acquire self b = (Ok (ut, up), s', b') -> -4 <= _os_mode self <= 3.
Proof.
  unfold acquire, bind, get_self, sleep, ret, lift, bus_write, bus_read.
  destruct (write_byte_data b _ _ _) as [[e1|] b1]; [discriminate|].
  destruct (read_i2c_block_data b1 _ _ _) as [[e1|vals] b2]; [discriminate|].
  destruct (raw_temperature vals) as [ut'|e1]; [|discriminate].
  destruct (write_byte_data b2 _ _ _) as [[e1|] b3]; [discriminate|].
  destruct (getitem _WAIT_PRESSURE (_os_mode self)) as [w|e1] eqn:W;
    [|discriminate].
  intros _. exact (wait_index_range _ _ W).
Qed.

Lemma update_invalid_mode (self : BMP180) (b : B) :
  ~ valid_mode (_os_mode self) ->
  (exists e, returned (_update_sensor_data self b) = Raise e) /\
  _pressure (object_after (_update_sensor_data self b)) = _pressure self.
Proof.
  intros V. rewrite update_run.
  destruct (acquire self b) as [[[[ut up]|e] s1] b1] eqn:A.
  - pose proof (acquire_wait_index _ _ _ _ _ _ A) as R.
    assert (N : _os_mode self < 0)
      by (rewrite valid_mode_range in V; lia).
    destruct (pressure_of_negative_mode self ut up N) as [e P].
    destruct (temperature_of self ut) as [t|e'].
    + rewrite P. split; [exists e; reflexivity|reflexivity].
    + split; [exists e'; reflexivity|reflexivity].
  - split; [exists e; reflexivity|reflexivity].
Qed.

(** X7. the constructor stores the mode it is given without checking it,
    and with a mode outside the four no reading ever succeeds: every
    accessor raises, and the stored pressure is never replaced. *)
Theorem unchecked_mode_never_reads :
  (forall (b b' : B) (a m : Z) (s : BMP180),
     __init__ b a m = (Ok s, b') ->
     _os_mode s = m /\ _addr s = a /\
     _pressure s = None /\ _temperature s = None) /\
  (forall (self : BMP180) (b : B),
     ~ valid_mode (_os_mode self) ->
     (exists e, returned (temperature self b) = Raise e) /\
     (exists e, returned (pressure self b) = Raise e) /\
     (exists e, returned (altitude self b) = Raise e) /\
     _pressure (object_after (pressure self b)) = _pressure self).
Proof.
  split.
  - intros b b' a m s. unfold __init__.
    destruct (_ && _); [|discriminate].
    destruct (_read_calibration_data a b) as [[c|e] b1]; [|discriminate].
    intros E.
    assert (Es : driver_of a c m = s)
      by exact (f_equal (fun x : result BMP180 * B =>
                  match fst x with Ok v => v | Raise _ => driver_of a c m end)
                  E).
    subst s. repeat split.
  - intros self b V.
    destruct (update_invalid_mode self b V) as [[e R] P].
    destruct (accessors_returned self b) as (-> & -> & -> & _).
    rewrite (proj1 (proj2 (accessors_object self b))).
    rewrite R.
    split; [exists e; reflexivity|]. split; [exists e; reflexivity|].
    split; [exists e; reflexivity|]. exact P.
Qed.

End Mode.

Lemma unchecked_mode_witness :
  (exists e, returned (pressure (driver_of 0x77 reference_coefficients 7)
                                reference_cycle) = Raise e) /\
  __init__ (inr reference_calibration_block :: reference_cycle) 0x77 7
  = (Ok (driver_of 0x77 reference_coefficients 7), reference_cycle).
Proof.
  split.
  - refine (proj1 (proj2 (proj2 unchecked_mode_never_reads
              (driver_of 0x77 reference_coefficients 7) reference_cycle _))).
    unfold valid_mode, OS_MODE_SINGLE, OS_MODE_2, OS_MODE_4, OS_MODE_8.
    cbn. lia.
  - reflexivity.
Defined.

(** * A failure in the pressure stage *)

Section PartialUpdate.

Context {B : Type} {smbus : SMBus B}.

(** X8. the temperature is stored before the pressure is computed.  When
    the second divisor B4 is zero, the update raises ZeroDivisionError
    having already replaced the stored temperature: the object then holds
    the temperature of this cycle and the pressure of an earlier one. *)
Theorem division_by_zero_keeps_new_temperature
    (self : BMP180) (b b' : B) (ut up : Z) :
  let d1 := temp_x1 self ut + _md self in
  let b5 := temp_x1 self ut + Z.shiftl (_mc self) 11 / d1 in
  calibrated self ->
  valid_mode (_os_mode self) ->
  acquire self b = (Ok (ut, up), self, b') ->
  d1 <> 0 ->
  calc_b4 self (b5 - 4000) = 0 ->
  exists t,
    temperature_of self ut = Ok t /\
    _update_sensor_data self b
      = (Raise ZeroDivisionError, set_temperature t self, b') /\
    _temperature (object_after (temperature self b)) = Some t /\
    _pressure (object_after (temperature self b)) = _pressure self.
Proof.
  intros d1 b5 Cal Mode A N1 Z4.
  destruct (acquire_ranges _ _ _ _ _ _ A) as [UT UP].
  destruct (temperature_of_total self ut Cal UT N1) as [t T].
  exists t. split; [exact T|].
  assert (U : _update_sensor_data self b
              = (Raise ZeroDivisionError, set_temperature t self, b')).
  { rewrite update_run, A, T.
    rewrite (pressure_of_b4_zero self ut up Cal Mode UT N1 Z4). reflexivity. }
  split; [exact U|].
  rewrite (proj1 (accessors_object self b)), U. split; reflexivity.
Qed.

End PartialUpdate.

(** The driver with AC4 = 0, holding the readings of an earlier cycle. *)
Lemma division_by_zero_witness :
  exists t,
    temperature_of driver_ac4_zero 27898 = Ok t /\
    _update_sensor_data
      (set_pressure 1013.25%float (set_temperature 7.4%float driver_ac4_zero))
      reference_cycle
    = (Raise ZeroDivisionError,
       set_temperature t
         (set_pressure 1013.25%float
            (set_temperature 7.4%float driver_ac4_zero)), []).
Proof.
  destruct (division_by_zero_keeps_new_temperature
              (set_pressure 1013.25%float
                 (set_temperature 7.4%float driver_ac4_zero))
              reference_cycle [] 27898 23843) as (t & T & U & _).
  - unfold calibrated, int16, uint16. cbn. lia.
  - left. reflexivity.
  - reflexivity.
  - vm_compute. discriminate.
  - vm_compute. reflexivity.
  - exists t. split; [exact T|exact U].
Defined.

(** * Construction on a short calibration block *)

Lemma unpack_wrong_length (buf : list byte) :
  length buf <> 22%nat -> Struct.unpack buf = Raise StructError.
Proof.
  intros L.
  do 22 (destruct buf as [|? buf]; [reflexivity|]).
  destruct buf; [|reflexivity].
  exfalso. apply L. reflexivity.
Qed.

Section ShortBlock.

Context {B : Type} {smbus : SMBus B}.

(** X9. for an address inside the range, when the bus answers the
    calibration read with a block that is not 22 bytes long, the constructor
    raises struct.error and builds no object; with 22 bytes the object
    holds the eleven fields decoded big-endian, AC4 to AC6 unsigned and
    the others signed. *)
Theorem constructor_needs_22_bytes
    (b b' : B) (a m : Z) (buf : list byte) :
  7 < a < 120 ->
  read_i2c_block_data b a _REG_CALIB_OFFSET 22 = (inr buf, b') ->
  (length buf <> 22%nat -> __init__ b a m = (Raise StructError, b')) /\
  (forall a1 a1' a2 a2' a3 a3' a4 a4' a5 a5' a6 a6'
          b1 b1' b2 b2' mb mb' mc mc' md md',
     buf = [a1; a1'; a2; a2'; a3; a3'; a4; a4'; a5; a5'; a6; a6';
            b1; b1'; b2; b2'; mb; mb'; mc; mc'; md; md'] ->
     __init__ b a m
     = (Ok (Self a (Struct.s16 a1 a1') (Struct.s16 a2 a2')
                 (Struct.s16 a3 a3') (Struct.u16 a4 a4')
                 (Struct.u16 a5 a5') (Struct.u16 a6 a6')
                 (Struct.s16 b1 b1') (Struct.s16 b2 b2')
                 (Struct.s16 mb mb') (Struct.s16 mc mc')
                 (Struct.s16 md md') m None None), b')).
Proof.
  intros A R. apply address_test in A.
  unfold __init__, _read_calibration_data. rewrite A, R. split.
  - intros L. rewrite (unpack_wrong_length buf L). reflexivity.
  - intros. subst buf. reflexivity.
Qed.

End ShortBlock.

Lemma constructor_needs_22_bytes_witness :
  __init__ ([inr short_calibration_block] : script) 0x77 OS_MODE_SINGLE
  = (Raise StructError, []).
Proof.
  refine (proj1 (constructor_needs_22_bytes
                   ([inr short_calibration_block] : script) [] 0x77
                   OS_MODE_SINGLE short_calibration_block _ _) _).
  - lia.
  - reflexivity.
  - cbn. discriminate.
Defined.

(** * The transfers of a cycle *)

Lemma pressure_command_value (m : Z) :
  valid_mode m -> pressure_command m = 0x34 + 64 * m.
Proof. intros [-> | [-> | [-> | ->]]]; reflexivity. Qed.

Section Traffic.

Context {B : Type} {smbus : SMBus B}.

(** On the recording bus the first half of a cycle does what it does on the
    bus underneath, and records the transfers it reached. *)
Lemma acquire_logged (self : BMP180) (log : list transfer) (b : B) :
  exists n,
    (n <= 4)%nat /\
    acquire self (log, b)
    = (returned (acquire self b), self,
       (log ++ firstn n (cycle_transfers self), bus_after (acquire self b)))
    /\ (forall v, returned (acquire self b) = Ok v -> n = 4%nat).
Proof.
  unfold acquire, bind, get_self, sleep, ret, lift, bus_write, bus_read,
    cycle_transfers.
  cbn [write_byte_data read_i2c_block_data logged_bus fst snd].
  destruct (write_byte_data b _ _ _) as [[e1|] b1]; cbn [fst snd].
  { exists 1%nat. split; [lia|]. split; [reflexivity|discriminate]. }
  destruct (read_i2c_block_data b1 _ _ _) as [[e1|vals] b2]; cbn [fst snd].
  { exists 2%nat. split; [lia|]. cbn [firstn]. rewrite <- app_assoc.
    split; [reflexivity|discriminate]. }
  destruct (raw_temperature vals) as [ut|e1].
  2:{ exists 2%nat. split; [lia|]. cbn [firstn]. rewrite <- app_assoc.
      split; [reflexivity|discriminate]. }
  destruct (write_byte_data b2 _ _ _) as [[e1|] b3]; cbn [fst snd].
  { exists 3%nat. split; [lia|]. cbn [firstn]. rewrite <- !app_assoc.
    split; [reflexivity|discriminate]. }
  destruct (getitem _WAIT_PRESSURE (_os_mode self)) as [w|e1].
  2:{ exists 3%nat. split; [lia|]. cbn [firstn]. rewrite <- !app_assoc.
      split; [reflexivity|discriminate]. }
  destruct (read_i2c_block_data b3 _ _ _) as [[e1|vals3] b4]; cbn [fst snd].
  { exists 4%nat. split; [lia|]. cbn [firstn]. rewrite <- !app_assoc.
    split; [reflexivity|reflexivity]. }
  exists 4%nat. split; [lia|]. cbn [firstn]. rewrite <- !app_assoc.
  destruct (raw_pressure vals3 (_os_mode self)) as [up|e1];
    split; reflexivity.
Qed.

(** X10. a reading cycle issues at most four transfers, in this order: write
    the temperature command 0x2E to register 0xF4, read 2 bytes from 0xF6,
    write the pressure command 0x34 + 64 * mode to 0xF4, read 3 bytes from
    0xF6; it stops at the first that fails, issues all four when it returns,
    and touches no other register.  An accessor adds no transfer. *)
Theorem cycle_traffic (self : BMP180) (log : list transfer) (b : B) :
  outcome (_update_sensor_data self (log, b))
    = outcome (_update_sensor_data self b) /\
  snd (bus_after (_update_sensor_data self (log, b)))
    = bus_after (_update_sensor_data self b) /\
  (exists n,
     (n <= 4)%nat /\
     fst (bus_after (_update_sensor_data self (log, b)))
     = log ++ firstn n (cycle_transfers self)) /\
  (returned (_update_sensor_data self (log, b)) = Ok tt ->
   fst (bus_after (pressure self (log, b)))
   = log ++ cycle_transfers self) /\
  (valid_mode (_os_mode self) ->
   cycle_transfers self
   = [Write (_addr self) 0xF4 0x2E; Read (_addr self) 0xF6 2;
      Write (_addr self) 0xF4 (0x34 + 64 * _os_mode self);
      Read (_addr self) 0xF6 3]).
Proof.
  destruct (acquire_logged self log b) as (n & N & A & F).
  assert (U : _update_sensor_data self (log, b)
              = (returned (_update_sensor_data self b),
                 object_after (_update_sensor_data self b),
                 (log ++ firstn n (cycle_transfers self),
                  bus_after (_update_sensor_data self b)))).
  { rewrite !update_run, A.
    pose proof (acquire_object self b) as O.
    destruct (acquire self b) as [[[[ut up]|e] s1] b1];
      cbn [returned object_after bus_after fst snd] in *; [|reflexivity].
    destruct (temperature_of self ut) as [t|e]; [|reflexivity].
    destruct (pressure_of self ut up) as [pa|e]; reflexivity. }
  split.
  { rewrite U. unfold outcome, returned, object_after. cbn [fst].
    destruct (_update_sensor_data self b) as [[r s] b0]. reflexivity. }
  split; [rewrite U; reflexivity|].
  split; [exists n; split; [exact N|rewrite U; reflexivity]|].
  split.
  - intros R.
    rewrite (proj1 (proj2 (proj2 (proj2 (proj2
               (accessors_returned self (log, b))))))).
    rewrite U in *. cbn [returned bus_after fst snd] in *.
    assert (n = 4%nat) as ->.
    { rewrite update_run in R.
      destruct (acquire self b) as [[[[ut up]|e] s1] b1].
      - exact (F (ut, up) eq_refl).
      - discriminate R. }
    reflexivity.
  - intros V. unfold cycle_transfers.
    rewrite (pressure_command_value _ V). reflexivity.
Qed.

(** X11. the constructor checks the address before it touches the bus: on
    an address outside the range it issues no transfer, and otherwise
    exactly one, a 22-byte read at register 0xAA; it never writes. *)
Theorem constructor_traffic (log : list transfer) (b : B) (a m : Z) :
  (~ 7 < a < 120 -> snd (__init__ (log, b) a m) = (log, b)) /\
  (7 < a < 120 ->
     fst (snd (__init__ (log, b) a m)) = log ++ [Read a 0xAA 22] /\
     snd (snd (__init__ (log, b) a m)) = snd (__init__ b a m)) /\
  fst (__init__ (log, b) a m) = fst (__init__ b a m).
Proof.
  unfold __init__, _read_calibration_data.
  cbn [read_i2c_block_data logged_bus fst snd].
  destruct ((a >? 7) && (a <? 120)) eqn:A.
  - apply address_test in A.
    destruct (read_i2c_block_data b a _REG_CALIB_OFFSET 22)
      as [[e|buf] b1].
    + split; [tauto|]. split; [|reflexivity]. intros _. split; reflexivity.
    + destruct (Struct.unpack buf);
        (split; [tauto|]; split; [|reflexivity]; intros _;
         split; reflexivity).
  - assert (N : ~ 7 < a < 120)
      by (intros H; apply address_test in H; congruence).
    split; [reflexivity|]. split; [tauto|reflexivity].
Qed.

End Traffic.

Lemma cycle_traffic_witness :
  fst (bus_after (pressure reference_driver (([] : list transfer),
                                             reference_cycle)))
  = [Write 0x77 0xF4 0x2E; Read 0x77 0xF6 2; Write 0x77 0xF4 0x34;
     Read 0x77 0xF6 3].
Proof.
  refine (proj1 (proj2 (proj2 (proj2
    (cycle_traffic reference_driver [] reference_cycle)))) _).
  vm_compute. reflexivity.
Defined.

Lemma constructor_traffic_witness :
  snd (__init__ (([] : list transfer), ([] : script)) 0x78 OS_MODE_SINGLE)
    = ([], []) /\
  fst (snd (__init__ (([] : list transfer),
                      [inr reference_calibration_block] : script)
                     0x77 OS_MODE_SINGLE))
    = [Read 0x77 0xAA 22].
Proof.
  split.
  - apply (proj1 (constructor_traffic [] ([] : script) 0x78 OS_MODE_SINGLE)).
    lia.
  - apply (proj1 (proj2 (constructor_traffic []
             ([inr reference_calibration_block] : script) 0x77
             OS_MODE_SINGLE))).
    lia.
Defined.

(** * The layout of the raw codes *)

(** [|] of a shifted value and a value below the shift is their sum. *)
Lemma lor_shiftl_add (a b n : Z) :
  0 <= n -> 0 <= b < 2 ^ n -> Z.lor (Z.shiftl a n) b = a * 2 ^ n + b.
Proof.
  intros N R. rewrite Z.shiftl_mul_pow2 by exact N.
  assert (L : Z.land (a * 2 ^ n) b = 0).
  { apply Z.bits_inj'. intros i I. rewrite Z.land_spec, Z.bits_0.
    destruct (Z.lt_ge_cases i n) as [Lt|Ge].
    - rewrite Z.mul_pow2_bits_low by lia. reflexivity.
    - destruct (Z.eq_dec b 0) as [->|Nz].
      + rewrite Z.bits_0. apply andb_false_r.
      + rewrite (Z.bits_above_log2 b i); [apply andb_false_r|lia|].
        apply Z.lt_le_trans with n; [|exact Ge].
        apply Z.log2_lt_pow2; lia. }
  rewrite <- Z.lxor_lor by exact L. symmetry.
  apply Z.add_nocarry_lxor. exact L.
Qed.

Lemma raw_temperature_value (t0 t1 : byte) (l : list byte) :
  raw_temperature (t0 :: t1 :: l) = Ok (Struct.u16 t0 t1).
Proof.
  rewrite raw_temperature_cons. unfold Struct.u16.
  pose proof (byte_val_range t1).
  rewrite lor_shiftl_add by lia. reflexivity.
Qed.

Lemma pressure_word_value (v0 v1 : byte) :
  Z.lor (Z.lor (Z.shiftl (Struct.byte_val v0) 16)
               (Z.shiftl (Struct.byte_val v1) 8))
        (Struct.byte_val v0)
  = Struct.u16 v0 v1 * 256 + Struct.byte_val v0.
Proof.
  pose proof (byte_val_range v0). pose proof (byte_val_range v1).
  unfold Struct.u16.
  rewrite (Z.shiftl_mul_pow2 (Struct.byte_val v1)) by lia.
  rewrite (lor_shiftl_add (Struct.byte_val v0)) by lia.
  replace (Struct.byte_val v0 * 2 ^ 16 + Struct.byte_val v1 * 2 ^ 8)
    with (Z.shiftl (Struct.byte_val v0 * 256 + Struct.byte_val v1) 8)
    by (rewrite Z.shiftl_mul_pow2 by lia; lia).
  rewrite lor_shiftl_add by lia. lia.
Qed.

(** X12. the raw temperature code is the big-endian 16-bit value of the
    first two bytes read.  In a valid mode the raw pressure code is the
    big-endian 16-bit value of the first two bytes, shifted left by the
    mode, plus the top [mode] bits of the first byte again: it has at most
    16 + mode bits, in single mode it is just that 16-bit value, and a
    block of two bytes is enough.  With fewer than two bytes either
    decoding raises IndexError. *)
Theorem raw_codes_layout
    (t0 t1 v0 v1 : byte) (l l' : list byte) (m : Z) :
  valid_mode m ->
  raw_temperature (t0 :: t1 :: l) = Ok (Struct.u16 t0 t1) /\
  (exists up,
     raw_pressure (v0 :: v1 :: l') m = Ok up /\
     up = Struct.u16 v0 v1 * 2 ^ m + Struct.byte_val v0 / 2 ^ (8 - m) /\
     up / 2 ^ m = Struct.u16 v0 v1 /\
     0 <= up < 2 ^ (16 + m) /\
     (m = OS_MODE_SINGLE -> up = Struct.u16 v0 v1)) /\
  raw_temperature [] = Raise IndexError /\
  raw_temperature [t0] = Raise IndexError /\
  raw_pressure [] m = Raise IndexError /\
  raw_pressure [v0] m = Raise IndexError.
Proof.
  intros V. split; [apply raw_temperature_value|].
  split; [|repeat split; reflexivity].
  pose proof (u16_range v0 v1) as U. unfold uint16 in U.
  pose proof (byte_val_range v0) as R0.
  rewrite raw_pressure_cons, pressure_word_value.
  eexists. split.
  - apply rshift_nonneg. apply valid_mode_range in V. lia.
  - unfold OS_MODE_SINGLE.
    destruct V as [-> | [-> | [-> | ->]]];
      unfold OS_MODE_SINGLE, OS_MODE_2, OS_MODE_4, OS_MODE_8;
      rewrite Z.shiftr_div_pow2 by lia;
      cbn [Z.sub Z.add Z.opp Z.pos_sub Z.succ_double Z.pred_double Z.double
             Pos.pred_double Z.pow Z.pow_pos Pos.iter Z.mul Pos.mul Pos.add
             Pos.succ];
      repeat split; try (intros; lia);
      Z.to_euclidean_division_equations; lia.
Qed.

Lemma raw_codes_layout_witness :
  exists up,
    raw_pressure [x5d; x23] OS_MODE_8 = Ok up /\
    up = Struct.u16 x5d x23 * 2 ^ 3 + Struct.byte_val x5d / 2 ^ (8 - 3).
Proof.
  destruct (proj1 (proj2 (raw_codes_layout x6c xfa x5d x23 [] [] OS_MODE_8
                            (or_intror (or_intror (or_intror eq_refl))))))
    as (up & R & E & _).
  exists up. split; [exact R|exact E].
Defined.

(** * Monotonicity of the pressure *)

(** The last correction never turns an increase of [p] into a decrease. *)
Lemma pressure_pa_monotone (p q : Z) :
  0 <= p <= q -> pressure_pa p <= pressure_pa q.
Proof.
  intros R. unfold pressure_pa. rewrite !Z.pow_2_r.
  rewrite !Z.shiftr_div_pow2 by lia.
  assert (S : p * p <= q * q) by nia.
  generalize dependent (p * p). generalize dependent (q * q).
  intros qq pp S.
  change (2 ^ 16) with 65536. change (2 ^ 4) with 16.
  assert (A : pp / 65536 * 3038 / 65536 <= qq / 65536 * 3038 / 65536).
  { apply Z.div_le_mono; [lia|].
    apply Z.mul_le_mono_nonneg_r; [lia|].
    apply Z.div_le_mono; lia. }
  generalize dependent (pp / 65536 * 3038 / 65536).
  generalize dependent (qq / 65536 * 3038 / 65536).
  intros a' a A.
  Z.to_euclidean_division_equations. lia.
Qed.

Lemma calc_p_monotone (b7 b7' b4 p p' : Z) :
  0 < b4 -> b7 <= b7' -> b7' < 0x80000000 ->
  calc_p b7 b4 = Ok p -> calc_p b7' b4 = Ok p' -> p <= p'.
Proof.
  intros P L U. unfold calc_p.
  destruct (Z.ltb_spec b7 0x80000000); [|lia].
  destruct (Z.ltb_spec b7' 0x80000000); [|lia].
  rewrite !floordiv_nonzero by lia.
  intros E E'. apply Ok_inj in E, E'. subst.
  apply Z.div_le_mono; lia.
Qed.

(** X13. with a positive divisor B4, and as long as B7 is nonnegative and
    below 0x80000000, a larger raw pressure code never gives a smaller
    pressure: the integer result in pascals is monotone in UP. *)
Theorem pressure_is_monotone_in_raw_code
    (self : BMP180) (b5 up up' b3 b7 b7' p p' : Z) :
  calc_b3 self (b5 - 4000) = Ok b3 ->
  calc_b7 self up b3 = Ok b7 ->
  calc_b7 self up' b3 = Ok b7' ->
  calc_p b7 (calc_b4 self (b5 - 4000)) = Ok p ->
  calc_p b7' (calc_b4 self (b5 - 4000)) = Ok p' ->
  0 < calc_b4 self (b5 - 4000) ->
  up <= up' ->
  0 <= b7 ->
  b7' < 0x80000000 ->
  calc_p_of self b5 up = Ok p /\
  calc_p_of self b5 up' = Ok p' /\
  0 <= p <= p' /\
  pressure_pa p <= pressure_pa p'.
Proof.
  intros B3 B7 B7' P P' B4 L N U.
  assert (Ep : calc_p_of self b5 up = Ok p)
    by (unfold calc_p_of; rewrite B3, B7; exact P).
  assert (Ep' : calc_p_of self b5 up' = Ok p')
    by (unfold calc_p_of; rewrite B3, B7'; exact P').
  split; [exact Ep|]. split; [exact Ep'|].
  assert (M : b7 <= b7').
  { unfold calc_b7, rshift in B7, B7'.
    destruct (Z.ltb_spec (_os_mode self) 0) as [|Mo]; [discriminate|].
    apply Ok_inj in B7, B7'. subst b7 b7'.
    apply Z.mul_le_mono_nonneg_r; [|lia].
    apply Z.shiftr_nonneg. lia. }
  assert (Pp : p <= p') by exact (calc_p_monotone _ _ _ _ _ B4 M U P P').
  assert (P0 : 0 <= p).
  { unfold calc_p in P. destruct (Z.ltb_spec b7 0x80000000); [|lia].
    rewrite floordiv_nonzero in P by lia. apply Ok_inj in P. subst p.
    apply Z.div_pos; lia. }
  split; [lia|]. apply pressure_pa_monotone. lia.
Qed.

Lemma pressure_is_monotone_witness :
  pressure_pa 70003 <= pressure_pa 70006.
Proof.
  refine (proj2 (proj2 (proj2 (pressure_is_monotone_in_raw_code
            reference_driver 2399 23843 23844 422 1171050000 1171100000
            70003 70006 _ _ _ _ _ _ _ _ _)))).
  all: try (vm_compute; reflexivity).
  all: vm_compute; discriminate.
Defined.

Module AltitudeOrder.
Import Altitude.
Local Open Scope R_scope.
Local Abbreviation real := Rdefinitions.R.








Lemma altitude_of_nonpositive (p : real) :
  p <= 0 -> altitude_of p = Raise ValueError.
Proof.
  intros P. unfold altitude_of.
  rewrite AltitudeFacts.math_log_nonpos; [reflexivity|].
  unfold p0. lra.
Qed.

End AltitudeOrder.



(** * Altitude of a reading that is not positive *)

Lemma zero_pressure_update :
  _update_sensor_data reference_driver zero_pressure_cycle
  = (Ok tt,
     set_pressure (-10.17)%float (set_temperature 15%float reference_driver),
     []).
Proof. vm_compute. reflexivity. Qed.

Lemma float_R_minus_10_17 : (Altitude.float_R (-10.17)%float <= 0)%R.
Proof.
  unfold Altitude.float_R.
  replace (Prim2SF (-10.17)%float)
    with (S754_finite true 5725201026294743 (-49))
    by (vm_compute; reflexivity).
  change (powerRZ 2 (-49)) with (/ (2 ^ 49))%R.
  assert (0 < / 2 ^ 49)%R
    by (apply Rinv_0_lt_compat, pow_lt; lra).
  assert (IZR (Z.neg 5725201026294743) < 0)%R by (apply IZR_lt; lia).
  nra.
Qed.

Section AltitudeDomain.

Context {B : Type} {smbus : SMBus B}.

(** X15. when the cycle stores a pressure that is zero or negative, which a
    small raw pressure code produces, [altitude()] raises ValueError (the
    domain error of [math.log]) after the readings were replaced, while
    [pressure()] on the same bus returns that pressure. *)
Theorem altitude_of_nonpositive_pressure
    (self s' : BMP180) (b b' : B) (pa : float) :
  _update_sensor_data self b = (Ok tt, s', b') ->
  _pressure s' = Some pa ->
  (Altitude.float_R pa <= 0)%R ->
  altitude self b = (Raise ValueError, s', b') /\
  pressure self b = (Ok (Some pa), s', b').
Proof.
  intros U P N. rewrite altitude_run, pressure_run, U, P.
  rewrite (AltitudeOrder.altitude_of_nonpositive _ N). split; reflexivity.
Qed.

End AltitudeDomain.

Lemma altitude_of_nonpositive_pressure_witness :
  altitude reference_driver zero_pressure_cycle
  = (Raise ValueError,
     set_pressure (-10.17)%float (set_temperature 15%float reference_driver),
     []).
Proof.
  exact (proj1 (altitude_of_nonpositive_pressure reference_driver _
                  zero_pressure_cycle [] (-10.17)%float
                  zero_pressure_update eq_refl float_R_minus_10_17)).
Defined.

(** * The exceptions of a cycle *)

Lemma raw_temperature_raises_IndexError (vals : list byte) (e : exn) :
  raw_temperature vals = Raise e -> e = IndexError.
Proof.
  unfold raw_temperature.
  destruct (getitem vals 0) eqn:G0;
    [|intros [= <-]; exact (getitem_raises _ _ _ G0)].
  destruct (getitem vals 1) eqn:G1; [discriminate|].
  intros [= <-]. exact (getitem_raises _ _ _ G1).
Qed.

Lemma raw_pressure_raises_IndexError (vals : list byte) (m : Z) (e : exn) :
  valid_mode m -> raw_pressure vals m = Raise e -> e = IndexError.
Proof.
  intros V. unfold raw_pressure.
  destruct (getitem vals 0) eqn:G0;
    [|intros [= <-]; exact (getitem_raises _ _ _ G0)].
  destruct (getitem vals 1) eqn:G1;
    [|intros [= <-]; exact (getitem_raises _ _ _ G1)].
  rewrite rshift_nonneg by (apply valid_mode_range in V; lia).
  discriminate.
Qed.

Section Exceptions.

Context {B : Type} {smbus : SMBus B}.

Lemma acquire_raises (self s' : BMP180) (b b' : B) (e : exn) :
  valid_mode (_os_mode self) ->
  acquire self b = (Raise e, s', b') ->
  (exists errno, e = IOError errno) \/ e = IndexError.
Proof.
  intros V.
  unfold acquire, bind, get_self, sleep, ret, lift, bus_write, bus_read.
  destruct (write_byte_data b _ _ _) as [[e1|] b1].
  { intros [= <- _ _]. left. eexists. reflexivity. }
  destruct (read_i2c_block_data b1 _ _ _) as [[e1|vals] b2].
  { intros [= <- _ _]. left. eexists. reflexivity. }
  destruct (raw_temperature vals) as [ut|e1] eqn:UT.
  2:{ intros [= <- _ _]. right.
      exact (raw_temperature_raises_IndexError _ _ UT). }
  destruct (write_byte_data b2 _ _ _) as [[e1|] b3].
  { intros [= <- _ _]. left. eexists. reflexivity. }
  destruct (wait_of_valid_mode _ V) as [w ->].
  destruct (read_i2c_block_data b3 _ _ _) as [[e1|vals3] b4].
  { intros [= <- _ _]. left. eexists. reflexivity. }
  destruct (raw_pressure vals3 (_os_mode self)) as [up|e1] eqn:UP;
    [discriminate|].
  intros [= <- _ _]. right.
  exact (raw_pressure_raises_IndexError _ _ _ V UP).
Qed.

(** X16. with calibrated coefficients and a valid mode, a reading cycle can
    raise only three kinds of exception: the bus error of a failed transfer,
    IndexError on a block shorter than two bytes, and ZeroDivisionError.
    It never raises OverflowError or ValueError. *)
Theorem exceptions_of_a_cycle (self : BMP180) (b : B) (e : exn) :
  calibrated self ->
  valid_mode (_os_mode self) ->
  returned (_update_sensor_data self b) = Raise e ->
  (exists errno, e = IOError errno) \/ e = IndexError \/
  e = ZeroDivisionError.
Proof.
  intros Cal V. rewrite update_run.
  destruct (acquire self b) as [[[[ut up]|e1] s1] b1] eqn:A.
  - destruct (acquire_ranges _ _ _ _ _ _ A) as [UT UP].
    destruct (Z.eq_dec (temp_x1 self ut + _md self) 0) as [Z1|N1].
    + unfold temperature_of. rewrite (calc_b5_zero _ _ Z1).
      intros [= <-]. right. right. reflexivity.
    + destruct (temperature_of_total self ut Cal UT N1) as [t ->].
      destruct (Z.eq_dec
                  (calc_b4 self
                     (temp_x1 self ut
                      + Z.shiftl (_mc self) 11 / (temp_x1 self ut + _md self)
                      - 4000)) 0) as [Z4|N4].
      * rewrite (pressure_of_b4_zero self ut up Cal V UT N1 Z4).
        intros [= <-]. right. right. reflexivity.
      * destruct (pressure_of_total self ut up Cal V UT UP N1 N4) as [pa ->].
        discriminate.
  - intros [= <-].
    destruct (acquire_raises _ _ _ _ _ V A) as [I|I]; [left|right; left];
      exact I.
Qed.

End Exceptions.

Lemma exceptions_of_a_cycle_witness :
  (exists errno, ZeroDivisionError = IOError errno) \/
  ZeroDivisionError = IndexError \/ ZeroDivisionError = ZeroDivisionError.
Proof.
  refine (exceptions_of_a_cycle driver_ac4_zero reference_cycle
            ZeroDivisionError _ _ _).
  - unfold calibrated, int16, uint16. cbn. lia.
  - left. reflexivity.
  - vm_compute. reflexivity.
Defined.
